(** * FNFTpy: the ctypes wrappers around the FNFT library

    A shallow embedding of the three wrapper modules of FNFTpy

      - [FNFTpy/fnft_nsep_wrapper.py]          ([nsep], [nsep_wrapper])
      - [FNFTpy/fnft_nsev_slow_wrapper.py]     ([nsev_slow], [nsev_slow_wrapper])
      - [FNFTpy/fnft_nsev_inverse_wrapper.py]  ([nsev_inverse],
        [nsev_inverse_wrapper], [nsev_inverse_xi_wrapper])

    The wrappers marshal Python values into C buffers, call one function of
    the FNFT shared library and assemble a result dictionary.  The model
    keeps exactly that: numpy arrays are objects of a store, the C functions
    are fields of an interface record that read and overwrite the buffers
    they are handed, every foreign call is logged with the arguments it
    received, and Python exceptions are an explicit outcome. *)

From Stdlib Require Import ZArith PrimFloat.
From stdpp Require Import base option list gmap strings.

Local Open Scope Z_scope.

(** ** Scalars *)

(** [numpy_double] is an IEEE double, [numpy_complex] a pair of them. *)
Definition double : Type := float.
Definition complex : Type := double * double.

Definition complex_zero : complex := (0%float, 0%float).

Definition complex_add (a b : complex) : complex :=
  ((a.1 + b.1)%float, (a.2 + b.2)%float).

(** The scalar [0.0j] of [q[:] + 0.0j]. *)
Definition zero_j : complex := (0%float, 0%float).

(** numpy's reductions [np.min] and [np.max] fold the binary
    minimum/maximum, which keep a NaN once they meet one. *)
Definition np_minimum (a b : double) : double :=
  if is_nan a then a else if (a <? b)%float then a else b.

Definition np_maximum (a b : double) : double :=
  if is_nan a then a else if (b <? a)%float then a else b.

(** ** Exceptions and Python values *)

Record exn := Exn { exn_class : string; exn_msg : string }.

Definition ValueError (msg : string) : exn := Exn "ValueError" msg.
Definition TypeError (msg : string) : exn := Exn "TypeError" msg.

(** The values a result dictionary holds: a Python int, a complex numpy
    array (by contents), a Python list (what slicing a ctypes pointer
    yields) and a string. *)
Inductive pyval :=
  | PInt (n : Z)
  | PArr (xs : list complex)
  | PList (xs : list Z)
  | PStr (s : string).

Abbreviation rdict := (gmap string pyval).

(** ** Option structures

    The ctypes structures live in [typesdef.py].  The wrappers read two
    fields of the nsev options, [discspec_type] and [contspec_type]; the
    other fields are the ones the docstrings list. *)

Record NsepOptionsStruct := {
  nsep_localization : Z;
  nsep_filtering : Z;
  nsep_bounding_box : list double;
  nsep_max_evals : Z;
  nsep_discretization : Z;
  nsep_normalization_flag : Z }.

Record NsevSlowOptionsStruct := {
  bound_state_filtering : Z;
  bound_state_localization : Z;
  niter : Z;
  discspec_type : Z;
  contspec_type : Z;
  discretization : Z;
  richardson_extrapolation_flag : Z }.

Record NsevInverseOptionsStruct := {
  inv_discretization : Z;
  inv_contspec_type : Z;
  inv_contspec_inversion_method : Z;
  inv_discspec_type : Z;
  inv_max_iter : Z;
  inv_oversampling_factor : Z }.

(** ** What the C functions see and what they leave behind

    An argument record is the snapshot of one foreign call: scalars by
    value, buffers by contents, [None] for a null pointer.  An output
    record holds the return value and the contents the function leaves in
    every buffer it was handed. *)

Record NsepArgs := {
  nsep_a_D : Z;
  nsep_a_q : list complex;
  nsep_a_T : double * double;
  nsep_a_K : Z;
  nsep_a_main_spec : list complex;
  nsep_a_M : Z;
  nsep_a_aux_spec : list complex;
  nsep_a_kappa : Z;
  nsep_a_options : NsepOptionsStruct }.

Record NsepOut := {
  nsep_o_rv : Z;
  nsep_o_q : list complex;
  nsep_o_K : Z;
  nsep_o_main_spec : list complex;
  nsep_o_M : Z;
  nsep_o_aux_spec : list complex }.

Record NsevSlowArgs := {
  slow_a_D : Z;
  slow_a_q : list complex;
  slow_a_T : double * double;
  slow_a_M : Z;
  slow_a_cont : option (list complex);
  slow_a_Xi : double * double;
  slow_a_K : Z;
  slow_a_boundstates : option (list complex);
  slow_a_discspec : option (list complex);
  slow_a_kappa : Z;
  slow_a_options : NsevSlowOptionsStruct }.

Record NsevSlowOut := {
  slow_o_rv : Z;
  slow_o_q : list complex;
  slow_o_cont : list complex;
  slow_o_K : Z;
  slow_o_boundstates : list complex;
  slow_o_discspec : list complex }.

Record NsevInverseArgs := {
  inv_a_M : Z;
  inv_a_contspec : list complex;
  inv_a_Xi : double * double;
  inv_a_K : Z;
  inv_a_boundstates : option (list complex);
  inv_a_discspec : option (list complex);
  inv_a_D : Z;
  inv_a_q : list complex;
  inv_a_T : double * double;
  inv_a_kappa : Z;
  inv_a_options : NsevInverseOptionsStruct }.

Record NsevInverseOut := {
  inv_o_rv : Z;
  inv_o_contspec : list complex;
  inv_o_boundstates : list complex;
  inv_o_discspec : list complex;
  inv_o_q : list complex }.

Record NsevInverseXiArgs := {
  xi_a_D : Z;
  xi_a_T : double * double;
  xi_a_M : Z;
  xi_a_Xi : double * double;
  xi_a_dis : Z }.

Record NsevInverseXiOut := {
  xi_o_rv : Z;
  xi_o_Xi : double * double }.

(** One entry of the log of foreign calls. *)
Inductive ccall :=
  | Call_nsep (a : NsepArgs)
  | Call_nsev_slow (a : NsevSlowArgs)
  | Call_nsev_inverse (a : NsevInverseArgs)
  | Call_nsev_inverse_XI (a : NsevInverseXiArgs).

(** ** The collaborators outside the three wrapper modules

    The FNFT shared library, and the modules [typesdef], [auxiliary] and
    [options_handling] of FNFTpy, are not part of the wrapper files.  They
    enter as an interface: the widths of the ctypes integer aliases, the
    four C entry points as functions from what they are handed to what
    they leave behind, [check_return_code] (it either returns or raises),
    the option builders and the [repr] of the option structures.  The
    limits of numpy enter the same way, since they depend on the platform
    and on the item size of [numpy_complex] fixed in [typesdef]:
    [np_intp_max] is the largest value of numpy's index type and
    [np_max_size] the largest number of [numpy_complex] entries an array
    may have (its bytes must be countable in the index type).

    What the model leaves out: loading the library
    ([ctypes.CDLL(get_lib_path())]) succeeds, an array of a size numpy
    accepts is allocated ([np.zeros] does not run out of memory below
    numpy's own limit), and a C function writes to the buffers it is
    handed but not to the option structure it receives by reference. *)
Class Env := {
  uint_bits : nat;
  int_bits : nat;
  np_intp_max : Z;
  np_max_size : Z;
  fnft_nsep : NsepArgs → NsepOut;
  fnft_nsev_slow : NsevSlowArgs → NsevSlowOut;
  fnft_nsev_inverse : NsevInverseArgs → NsevInverseOut;
  fnft_nsev_inverse_XI : NsevInverseXiArgs → NsevInverseXiOut;
  check_return_code : Z → option exn;
  get_nsev_slow_options :
    option Z → option Z → option Z → option Z → option Z → option Z →
    option Z → NsevSlowOptionsStruct;
  get_nsev_inverse_options :
    Z → option Z → option Z → option Z → option Z → option Z →
    NsevInverseOptionsStruct;
  repr_nsep_options : NsepOptionsStruct → string;
  repr_nsev_slow_options : NsevSlowOptionsStruct → string;
  repr_nsev_inverse_options : NsevInverseOptionsStruct → string }.

(** ** The store and the monad of wrapper code *)

Definition loc : Type := positive.

Record world := World {
  heap : gmap loc (list complex);
  calls : list ccall }.

Inductive outcome (A : Type) :=
  | Ret (a : A)
  | Raise (e : exn).
Arguments Ret {A} a.
Arguments Raise {A} e.

Definition py (A : Type) : Type := world → outcome A * world.

Definition py_ret {A} (a : A) : py A := λ w, (Ret a, w).

Definition py_bind {A B} (f : A → py B) (m : py A) : py B :=
  λ w, match m w with
       | (Ret a, w') => f a w'
       | (Raise e, w') => (Raise e, w')
       end.

#[global] Instance py_mret : MRet py := @py_ret.
#[global] Instance py_mbind : MBind py := @py_bind.

Definition raise {A} (e : exn) : py A := λ w, (Raise e, w).

(** A pointer argument of a foreign call: the null pointer
    ([ctypes.POINTER(ctypes.c_int)()]) or a numpy array. *)
Inductive buffer :=
  | Nullptr
  | Ndarray (l : loc).

(** ** ctypes integers *)

Section Wrappers.
Context `{Env}.

(** [ctypes_uint(n).value]: ctypes does not check for overflow, the value
    is reduced modulo the width. *)
Definition ctypes_uint (n : Z) : Z := n mod 2 ^ Z.of_nat uint_bits.

Definition wrap_signed (bits n : Z) : Z :=
  (n + 2 ^ (bits - 1)) mod 2 ^ bits - 2 ^ (bits - 1).

Definition ctypes_int (n : Z) : Z := wrap_signed (Z.of_nat int_bits) n.
Definition ctypes_int32 (n : Z) : Z := wrap_signed 32 n.

(** ** numpy *)

(** What numpy says of a size beyond its limits: one text for a size
    that does not fit the index type, another for an array whose bytes
    do not. *)
Definition np_too_big (n : Z) : string :=
  if decide (np_intp_max < n) then "Maximum allowed dimension exceeded"
  else "array is too big; `arr.size * arr.dtype.itemsize` is larger than the maximum possible size.".

(** [np.zeros(n, dtype=numpy_complex)]: a new array object, or a
    [ValueError] for a negative size and for a size beyond numpy's
    limit. *)
Definition np_zeros (n : Z) : py loc := λ w,
  if decide (n < 0)
  then (Raise (ValueError "negative dimensions are not allowed"), w)
  else if decide (np_max_size < n)
  then (Raise (ValueError (np_too_big n)), w)
  else
    let l := fresh (dom (heap w)) in
    (Ret l, World (<[l := replicate (Z.to_nat n) complex_zero]> (heap w)) (calls w)).

(** Reading an array object ([a[:]] used as a value). *)
Definition get_array (l : loc) : py (list complex) := λ w,
  match heap w !! l with
  | Some xs => (Ret xs, w)
  | None => (Raise (TypeError "object is not subscriptable"), w)
  end.

(** [len(a)]. *)
Definition len (l : loc) : py Z :=
  xs ← get_array l; mret (Z.of_nat (length xs)).

(** Broadcasting a one-dimensional source to [n] entries: same length, or
    a single entry that is repeated. *)
Definition broadcast_to {A} (n : nat) (src : list A) : option (list A) :=
  if decide (length src = n) then Some src
  else match src with
       | [x] => Some (replicate n x)
       | _ => None
       end.

(** [dst[:] = src]. *)
Definition setitem_all (dst : loc) (src : list complex) : py () := λ w,
  match heap w !! dst with
  | Some old =>
      match broadcast_to (length old) src with
      | Some new => (Ret (), World (<[dst := new]> (heap w)) (calls w))
      | None => (Raise (ValueError "could not broadcast input array"), w)
      end
  | None => (Raise (TypeError "object does not support item assignment"), w)
  end.

(** [a[i:j]] on a sequence: negative bounds count from the end, and both
    are clipped to the length. *)
Definition clip_index (n i : Z) : Z :=
  if i <? 0 then Z.max 0 (i + n) else Z.min i n.

Definition py_slice {A} (xs : list A) (i j : Z) : list A :=
  let n := Z.of_nat (length xs) in
  let i' := clip_index n i in
  let j' := clip_index n j in
  take (Z.to_nat (j' - i')) (drop (Z.to_nat i') xs).

(** What becomes of a non-empty slice of a null ctypes pointer.  The
    slice builds a list of the items [i .. j-1]; every access through
    the null pointer fails with [ValueError("NULL pointer access")], but
    the slice does not look at the failure and hands back its list with
    that error left pending.  The interpreter reports the pending error
    as a [SystemError] at the next call that checks for one; the text of
    the report depends on the call and on the interpreter version. *)
Definition SystemError (msg : string) : exn := Exn "SystemError" msg.

Definition null_slice_error : exn :=
  SystemError "returned a result with an exception set".

(** [b[i:j]] where [b] is what was handed to the C function: a numpy
    array, or the null pointer.  Of a null pointer only the empty slice
    succeeds, as the empty list.  In the wrappers a slice of a null
    pointer is followed by dictionary updates, slices of numpy arrays
    and [repr(options)] only, none of which touches an array or calls
    the library, so the wrapper ends in [null_slice_error] with the
    store and the calls as they are at the slice: the model raises it
    there. *)
Definition getslice (b : buffer) (i j : Z) : py pyval :=
  match b with
  | Ndarray l => xs ← get_array l; mret (PArr (py_slice xs i j))
  | Nullptr =>
      if decide (i < j) then raise null_slice_error
      else mret (PList [])
  end.

(** [np.min(xs)] and [np.max(xs)]: the reduction of a non-empty array,
    a [ValueError] on an empty one. *)
Definition amin (xs : list double) : option double :=
  match xs with
  | [] => None
  | x :: r => Some (foldl np_minimum x r)
  end.

Definition amax (xs : list double) : option double :=
  match xs with
  | [] => None
  | x :: r => Some (foldl np_maximum x r)
  end.

Definition np_min (xs : list double) : py double :=
  match amin xs with
  | Some v => mret v
  | None => raise (ValueError "zero-size array to reduction operation minimum which has no identity")
  end.

Definition np_max (xs : list double) : py double :=
  match amax xs with
  | Some v => mret v
  | None => raise (ValueError "zero-size array to reduction operation maximum which has no identity")
  end.

(** ** Foreign calls

    A C function overwrites a buffer in place and cannot resize it:
    [write_back old new] is the buffer after the call, the contents the
    function leaves cut or completed to the buffer's length. *)
Definition write_back (old new : list complex) : list complex :=
  take (length old) new ++ drop (length new) old.

Definition load (b : buffer) : py (option (list complex)) :=
  match b with
  | Nullptr => mret None
  | Ndarray l => xs ← get_array l; mret (Some xs)
  end.

Definition store (l : loc) (new : list complex) : py () := λ w,
  match heap w !! l with
  | Some old => (Ret (), World (<[l := write_back old new]> (heap w)) (calls w))
  | None => (Raise (TypeError "object does not support item assignment"), w)
  end.

Definition store_buffer (b : buffer) (new : list complex) : py () :=
  match b with
  | Nullptr => mret ()
  | Ndarray l => store l new
  end.

Definition log_call (c : ccall) : py () := λ w,
  (Ret (), World (heap w) (calls w ++ [c])).

(** [fnft_nsep(D, q, T, &K, main_spec, &M, aux_spec, NULL, kappa, &options)].
    The sheet indices are always the null pointer.  The return value comes
    back through [restype = ctypes_int], the counts through the two
    [ctypes_uint] objects passed by reference. *)
Definition call_fnft_nsep (D : Z) (q : loc) (T : double * double)
    (K : Z) (main_spec : loc) (M : Z) (aux_spec : loc) (kappa : Z)
    (options : NsepOptionsStruct) : py (Z * Z * Z) :=
  qv ← get_array q;
  mainv ← get_array main_spec;
  auxv ← get_array aux_spec;
  let a := {| nsep_a_D := D; nsep_a_q := qv; nsep_a_T := T;
              nsep_a_K := K; nsep_a_main_spec := mainv;
              nsep_a_M := M; nsep_a_aux_spec := auxv;
              nsep_a_kappa := kappa; nsep_a_options := options |} in
  let o := fnft_nsep a in
  log_call (Call_nsep a);;
  store q (nsep_o_q o);;
  store main_spec (nsep_o_main_spec o);;
  store aux_spec (nsep_o_aux_spec o);;
  mret (ctypes_int (nsep_o_rv o), ctypes_uint (nsep_o_K o), ctypes_uint (nsep_o_M o)).

(** [fnft_nsev_slow(D, q, T, M, cont, Xi, &K, boundstates, discspec, kappa, &options)]. *)
Definition call_fnft_nsev_slow (D : Z) (q : loc) (T : double * double)
    (M : Z) (cont : buffer) (Xi : double * double) (K : Z)
    (boundstates discspec : buffer) (kappa : Z)
    (options : NsevSlowOptionsStruct) : py (Z * Z) :=
  qv ← get_array q;
  contv ← load cont;
  bsv ← load boundstates;
  dsv ← load discspec;
  let a := {| slow_a_D := D; slow_a_q := qv; slow_a_T := T;
              slow_a_M := M; slow_a_cont := contv; slow_a_Xi := Xi;
              slow_a_K := K; slow_a_boundstates := bsv;
              slow_a_discspec := dsv; slow_a_kappa := kappa;
              slow_a_options := options |} in
  let o := fnft_nsev_slow a in
  log_call (Call_nsev_slow a);;
  store q (slow_o_q o);;
  store_buffer cont (slow_o_cont o);;
  store_buffer boundstates (slow_o_boundstates o);;
  store_buffer discspec (slow_o_discspec o);;
  mret (ctypes_int (slow_o_rv o), ctypes_uint (slow_o_K o)).

(** [fnft_nsev_inverse(M, contspec, Xi, K, boundstates, discspec, D, q, T, kappa, &options)]. *)
Definition call_fnft_nsev_inverse (M : Z) (contspec : loc)
    (Xi : double * double) (K : Z) (boundstates discspec : buffer)
    (D : Z) (q : loc) (T : double * double) (kappa : Z)
    (options : NsevInverseOptionsStruct) : py Z :=
  cv ← get_array contspec;
  bsv ← load boundstates;
  dsv ← load discspec;
  qv ← get_array q;
  let a := {| inv_a_M := M; inv_a_contspec := cv; inv_a_Xi := Xi;
              inv_a_K := K; inv_a_boundstates := bsv;
              inv_a_discspec := dsv; inv_a_D := D; inv_a_q := qv;
              inv_a_T := T; inv_a_kappa := kappa;
              inv_a_options := options |} in
  let o := fnft_nsev_inverse a in
  log_call (Call_nsev_inverse a);;
  store contspec (inv_o_contspec o);;
  store_buffer boundstates (inv_o_boundstates o);;
  store_buffer discspec (inv_o_discspec o);;
  store q (inv_o_q o);;
  mret (ctypes_int (inv_o_rv o)).

(** [fnft_nsev_inverse_XI(D, T, M, Xi, dis)]: the two-element double
    arrays travel by value, the function leaves the borders in [Xi]. *)
Definition call_fnft_nsev_inverse_XI (D : Z) (T : double * double) (M : Z)
    (Xi : double * double) (dis : Z) : py (Z * (double * double)) :=
  let a := {| xi_a_D := D; xi_a_T := T; xi_a_M := M; xi_a_Xi := Xi;
              xi_a_dis := dis |} in
  let o := fnft_nsev_inverse_XI a in
  log_call (Call_nsev_inverse_XI a);;
  mret (ctypes_int (xi_o_rv o), xi_o_Xi o).

(** [check_return_code(rv)] as a statement: it returns, or it raises. *)
Definition do_check_return_code (rv : Z) : py () :=
  match check_return_code rv with
  | Some e => raise e
  | None => mret ()
  end.

(** ** fnft_nsep_wrapper.py *)

Definition nsep_wrapper (D : Z) (q : loc) (T1 T2 : double) (kappa : Z)
    (options : NsepOptionsStruct) : py rdict :=
  let nsep_D := ctypes_uint D in
  nsep_q ← np_zeros nsep_D;
  qv ← get_array q;
  setitem_all nsep_q (map (λ z, complex_add z zero_j) qv);;
  let nsep_T := (T1, T2) in
  let nsep_K := ctypes_uint (4 * nsep_D) in
  nsep_main_spec ← np_zeros nsep_K;
  let nsep_M := ctypes_uint (2 * nsep_D) in
  nsep_aux_spec ← np_zeros nsep_M;
  let nsep_kappa := ctypes_int kappa in
  '(rv, nsep_K', nsep_M') ←
    call_fnft_nsep nsep_D nsep_q nsep_T nsep_K nsep_main_spec
                   nsep_M nsep_aux_spec nsep_kappa options;
  main ← getslice (Ndarray nsep_main_spec) 0 nsep_K';
  aux ← getslice (Ndarray nsep_aux_spec) 0 nsep_M';
  mret (<["options" := PStr (repr_nsep_options options)]>
        (<["aux" := aux]>
         (<["M" := PInt nsep_M']>
          (<["main" := main]>
           (<["K" := PInt nsep_K']>
            (<["return_value" := PInt rv]> ∅)))))).

(** ** fnft_nsev_slow_wrapper.py *)

(** Lines 192-207: the buffers for the discrete spectrum, as the pair
    [(nsev_slow_discspec, nsev_slow_boundstates)]. *)
Definition nsev_slow_alloc_disc (K : Z) (options : NsevSlowOptionsStruct)
    : py (buffer * buffer) :=
  if decide (discspec_type options = 0 ∨ discspec_type options = 1) then
    nsev_slow_discspec ← np_zeros K;
    nsev_slow_boundstates ← np_zeros K;
    mret (Ndarray nsev_slow_discspec, Ndarray nsev_slow_boundstates)
  else if decide (discspec_type options = 2) then
    nsev_slow_discspec ← np_zeros (2 * K);
    nsev_slow_boundstates ← np_zeros K;
    mret (Ndarray nsev_slow_discspec, Ndarray nsev_slow_boundstates)
  else
    mret (Nullptr, Nullptr).

(** Lines 211-225: the buffer for the continuous spectrum. *)
Definition nsev_slow_alloc_cont (M : Z) (options : NsevSlowOptionsStruct)
    : py buffer :=
  if decide (contspec_type options = 0) then
    nsev_slow_cont ← np_zeros M; mret (Ndarray nsev_slow_cont)
  else if decide (contspec_type options = 1) then
    nsev_slow_cont ← np_zeros (2 * M); mret (Ndarray nsev_slow_cont)
  else if decide (contspec_type options = 2) then
    nsev_slow_cont ← np_zeros (3 * M); mret (Ndarray nsev_slow_cont)
  else
    mret Nullptr.

(** Lines 261-273: the discrete spectrum put into the dictionary. *)
Definition nsev_slow_disc_output (options : NsevSlowOptionsStruct)
    (nsev_slow_discspec : buffer) (K_new : Z) (rd : rdict) : py rdict :=
  if decide (discspec_type options = 0) then
    v ← getslice nsev_slow_discspec 0 K_new;
    mret (<["disc_norm" := v]> rd)
  else if decide (discspec_type options = 1) then
    v ← getslice nsev_slow_discspec 0 K_new;
    mret (<["disc_res" := v]> rd)
  else if decide (discspec_type options = 2) then
    v1 ← getslice nsev_slow_discspec 0 K_new;
    v2 ← getslice nsev_slow_discspec K_new (2 * K_new);
    mret (<["disc_res" := v2]> (<["disc_norm" := v1]> rd))
  else
    mret rd.

(** Lines 277-291: the continuous spectrum put into the dictionary. *)
Definition nsev_slow_cont_output (options : NsevSlowOptionsStruct)
    (nsev_slow_cont : buffer) (M : Z) (rd : rdict) : py rdict :=
  if decide (contspec_type options = 0) then
    v ← getslice nsev_slow_cont 0 M;
    mret (<["cont_ref" := v]> rd)
  else if decide (contspec_type options = 1) then
    v1 ← getslice nsev_slow_cont 0 M;
    v2 ← getslice nsev_slow_cont M (2 * M);
    mret (<["cont_b" := v2]> (<["cont_a" := v1]> rd))
  else if decide (contspec_type options = 2) then
    v1 ← getslice nsev_slow_cont 0 M;
    v2 ← getslice nsev_slow_cont M (2 * M);
    v3 ← getslice nsev_slow_cont (2 * M) (3 * M);
    mret (<["cont_b" := v3]> (<["cont_a" := v2]> (<["cont_ref" := v1]> rd)))
  else
    mret rd.

Definition nsev_slow_wrapper (D : Z) (q : loc) (T1 T2 Xi1 Xi2 : double)
    (M K kappa : Z) (options : NsevSlowOptionsStruct) : py rdict :=
  let nsev_slow_D := ctypes_uint D in
  let nsev_slow_M := ctypes_uint M in
  let nsev_slow_K := ctypes_uint K in
  let nsev_slow_T := (T1, T2) in
  nsev_slow_q ← np_zeros nsev_slow_D;
  qv ← get_array q;
  setitem_all nsev_slow_q (map (λ z, complex_add z zero_j) qv);;
  let nsev_slow_kappa := ctypes_int kappa in
  let nsev_slow_Xi := (Xi1, Xi2) in
  '(nsev_slow_discspec, nsev_slow_boundstates) ← nsev_slow_alloc_disc K options;
  nsev_slow_cont ← nsev_slow_alloc_cont M options;
  '(rv, K_new) ←
    call_fnft_nsev_slow nsev_slow_D nsev_slow_q nsev_slow_T nsev_slow_M
                        nsev_slow_cont nsev_slow_Xi nsev_slow_K
                        nsev_slow_boundstates nsev_slow_discspec
                        nsev_slow_kappa options;
  do_check_return_code rv;;
  bound_states ← getslice nsev_slow_boundstates 0 K_new;
  let rd : rdict :=
    <["bound_states" := bound_states]>
      (<["bound_states_num" := PInt K_new]>
        (<["return_value" := PInt rv]> ∅)) in
  rd ← nsev_slow_disc_output options nsev_slow_discspec K_new rd;
  rd ← nsev_slow_cont_output options nsev_slow_cont M rd;
  mret (<["options" := PStr (repr_nsev_slow_options options)]> rd).

(** The convenience function; its defaults are [Xi1=-2], [Xi2=2],
    [M=128], [K=128], [kappa=1] and [None] for every option. *)
Definition nsev_slow (q : loc) (tvec : list double) (Xi1 Xi2 : double)
    (M K kappa : Z) (bsf bsl niter dst cst dis ref : option Z) : py rdict :=
  D ← len q;
  T1 ← np_min tvec;
  T2 ← np_max tvec;
  let options := get_nsev_slow_options bsf bsl niter dst cst dis ref in
  nsev_slow_wrapper D q T1 T2 Xi1 Xi2 M K kappa options.

(** ** fnft_nsev_inverse_wrapper.py *)

(** [x[:]] where [x] may be [None]. *)
Definition getitem_all (x : option loc) : py (list complex) :=
  match x with
  | Some l => get_array l
  | None => raise (TypeError "'NoneType' object is not subscriptable")
  end.

Definition nsev_inverse_wrapper (M : Z) (contspec : loc) (Xi1 Xi2 : double)
    (K : Z) (bound_states normconst_or_residues : option loc)
    (D : Z) (T1 T2 : double) (kappa : Z)
    (options : NsevInverseOptionsStruct) : py rdict :=
  let nsev_M := ctypes_uint M in
  nsev_contspec ← np_zeros M;
  cv ← get_array contspec;
  setitem_all nsev_contspec cv;;
  let nsev_Xi := (Xi1, Xi2) in
  let nsev_K := ctypes_uint K in
  '(nsev_boundstates, nsev_discspec) ←
    (if decide (K > 0) then
       nsev_boundstates ← np_zeros K;
       bsv ← getitem_all bound_states;
       setitem_all nsev_boundstates bsv;;
       nsev_discspec ← np_zeros K;
       dsv ← getitem_all normconst_or_residues;
       setitem_all nsev_discspec dsv;;
       mret (Ndarray nsev_boundstates, Ndarray nsev_discspec)
     else
       mret (Nullptr, Nullptr));
  let nsev_D := ctypes_uint D in
  let nsev_T := (T1, T2) in
  let nsev_kappa := ctypes_int kappa in
  nsev_q ← np_zeros nsev_D;
  rv ← call_fnft_nsev_inverse nsev_M nsev_contspec nsev_Xi nsev_K
                              nsev_boundstates nsev_discspec nsev_D nsev_q
                              nsev_T nsev_kappa options;
  do_check_return_code rv;;
  qv ← get_array nsev_q;
  mret (<["options" := PStr (repr_nsev_inverse_options options)]>
        (<["q" := PArr qv]>
         (<["return_value" := PInt rv]> ∅))).

Definition nsev_inverse_xi_wrapper (D : Z) (T1 T2 : double) (M dis : Z)
    : py (Z * (double * double)) :=
  let nsev_D := ctypes_uint D in
  let nsev_T := (T1, T2) in
  let nsev_M := ctypes_uint M in
  let nsev_Xi := (0%float, 0%float) in
  let nsev_dis := ctypes_int32 dis in
  '(rv, nsev_Xi') ← call_fnft_nsev_inverse_XI nsev_D nsev_T nsev_M nsev_Xi nsev_dis;
  mret (rv, nsev_Xi').

(** The argument record of the call [nsev_inverse_xi_wrapper] makes. *)
Definition nsev_inverse_xi_args (D : Z) (T1 T2 : double) (M dis : Z)
    : NsevInverseXiArgs :=
  {| xi_a_D := ctypes_uint D; xi_a_T := (T1, T2); xi_a_M := ctypes_uint M;
     xi_a_Xi := (0%float, 0%float); xi_a_dis := ctypes_int32 dis |}.

(** The convenience function; [dis] defaults to [4], the options to
    [None]. *)
Definition nsev_inverse (contspec : loc) (tvec : list double) (kappa dis : Z)
    (cst csim dst max_iter osf : option Z) : py rdict :=
  M ← len contspec;
  let D := Z.of_nat (length tvec) in
  T1 ← np_min tvec;
  T2 ← np_max tvec;
  let K := 0 in
  '(rv, tmpxi) ← nsev_inverse_xi_wrapper D T1 T2 M dis;
  if decide (rv ≠ 0) then
    raise (ValueError "nsev_inverse_xi calculation failed")
  else
    let options := get_nsev_inverse_options dis cst csim dst max_iter osf in
    nsev_inverse_wrapper M contspec tmpxi.1 tmpxi.2 K None None D T1 T2 kappa options.

(** ** What a call leaves behind, read off its argument record

    The counts after the call are the [.value] of the [ctypes_uint]
    objects the C function wrote through; a buffer after the call is what
    the function left in it. *)
Definition nsep_K_new (a : NsepArgs) : Z := ctypes_uint (nsep_o_K (fnft_nsep a)).
Definition nsep_M_new (a : NsepArgs) : Z := ctypes_uint (nsep_o_M (fnft_nsep a)).

Definition nsep_main_after (a : NsepArgs) : list complex :=
  write_back (nsep_a_main_spec a) (nsep_o_main_spec (fnft_nsep a)).

Definition nsep_aux_after (a : NsepArgs) : list complex :=
  write_back (nsep_a_aux_spec a) (nsep_o_aux_spec (fnft_nsep a)).

Definition after (old : option (list complex)) (new : list complex) : list complex :=
  match old with
  | Some xs => write_back xs new
  | None => []
  end.

Definition slow_K_new (a : NsevSlowArgs) : Z := ctypes_uint (slow_o_K (fnft_nsev_slow a)).

Definition slow_boundstates_after (a : NsevSlowArgs) : list complex :=
  after (slow_a_boundstates a) (slow_o_boundstates (fnft_nsev_slow a)).

Definition slow_discspec_after (a : NsevSlowArgs) : list complex :=
  after (slow_a_discspec a) (slow_o_discspec (fnft_nsev_slow a)).

Definition slow_cont_after (a : NsevSlowArgs) : list complex :=
  after (slow_a_cont a) (slow_o_cont (fnft_nsev_slow a)).

End Wrappers.

(** The selector values that request a spectrum: 0, 1 and 2. *)
Definition disc_requested (options : NsevSlowOptionsStruct) : Prop :=
  discspec_type options = 0 ∨ discspec_type options = 1 ∨ discspec_type options = 2.

Definition cont_requested (options : NsevSlowOptionsStruct) : Prop :=
  contspec_type options = 0 ∨ contspec_type options = 1 ∨ contspec_type options = 2.

(** [rd[key][i]] for an array entry of a result dictionary. *)
Definition array_item (rd : rdict) (key : string) (i : nat) : option complex :=
  match rd !! key with
  | Some (PArr xs) => xs !! i
  | _ => None
  end.

(** [len(v)] of a dictionary entry. *)
Definition pyval_len (v : pyval) : nat :=
  match v with
  | PArr xs => length xs
  | PList xs => length xs
  | _ => 0%nat
  end.


(** ** The convenience function of fnft_nsep_wrapper.py

    [nsep] takes the number of samples from the array and builds the
    options with [get_nsep_options], a function of [options_handling]
    that enters as an argument. *)
Definition nsep `{Env}
    (get_nsep_options :
       option Z → option Z → option (list double) → option Z → option Z →
       option Z → NsepOptionsStruct)
    (q : loc) (T1 T2 : double) (kappa : Z) (localization filt : option Z)
    (bb : option (list double)) (maxev dis nf : option Z) : py rdict :=
  D ← len q;
  let options := get_nsep_options localization filt bb maxev dis nf in
  nsep_wrapper D q T1 T2 kappa options.

(** ** The argument records the wrappers build

    What each wrapper hands to its C function when its marshalling
    succeeds, as a function of the wrapper's own arguments and of the
    contents [qv] of the caller's array. *)
Definition zeros (n : Z) : list complex := replicate (Z.to_nat n) complex_zero.

Definition add_zero_j (qv : list complex) : list complex :=
  map (λ z, complex_add z zero_j) qv.

Definition nsep_args `{Env} (D : Z) (qv : list complex) (T1 T2 : double)
    (kappa : Z) (options : NsepOptionsStruct) : NsepArgs :=
  {| nsep_a_D := ctypes_uint D;
     nsep_a_q := add_zero_j qv;
     nsep_a_T := (T1, T2);
     nsep_a_K := ctypes_uint (4 * ctypes_uint D);
     nsep_a_main_spec := zeros (ctypes_uint (4 * ctypes_uint D));
     nsep_a_M := ctypes_uint (2 * ctypes_uint D);
     nsep_a_aux_spec := zeros (ctypes_uint (2 * ctypes_uint D));
     nsep_a_kappa := ctypes_int kappa;
     nsep_a_options := options |}.

Definition nsev_slow_args `{Env} (D : Z) (qv : list complex)
    (T1 T2 Xi1 Xi2 : double) (M K kappa : Z)
    (options : NsevSlowOptionsStruct) : NsevSlowArgs :=
  {| slow_a_D := ctypes_uint D;
     slow_a_q := add_zero_j qv;
     slow_a_T := (T1, T2);
     slow_a_M := ctypes_uint M;
     slow_a_cont :=
       if decide (contspec_type options = 0) then Some (zeros M)
       else if decide (contspec_type options = 1) then Some (zeros (2 * M))
       else if decide (contspec_type options = 2) then Some (zeros (3 * M))
       else None;
     slow_a_Xi := (Xi1, Xi2);
     slow_a_K := ctypes_uint K;
     slow_a_boundstates :=
       if decide (disc_requested options) then Some (zeros K) else None;
     slow_a_discspec :=
       if decide (discspec_type options = 0 ∨ discspec_type options = 1)
       then Some (zeros K)
       else if decide (discspec_type options = 2) then Some (zeros (2 * K))
       else None;
     slow_a_kappa := ctypes_int kappa;
     slow_a_options := options |}.

Definition nsev_inverse_args `{Env} (M : Z) (cv : list complex)
    (Xi1 Xi2 : double) (K : Z) (bsv dsv : option (list complex))
    (D : Z) (T1 T2 : double) (kappa : Z)
    (options : NsevInverseOptionsStruct) : NsevInverseArgs :=
  {| inv_a_M := ctypes_uint M;
     inv_a_contspec := cv;
     inv_a_Xi := (Xi1, Xi2);
     inv_a_K := ctypes_uint K;
     inv_a_boundstates := bsv;
     inv_a_discspec := dsv;
     inv_a_D := ctypes_uint D;
     inv_a_q := zeros (ctypes_uint D);
     inv_a_T := (T1, T2);
     inv_a_kappa := ctypes_int kappa;
     inv_a_options := options |}.

(** ** The sizes numpy accepts

    [np.zeros(n)] succeeds exactly for these sizes; the two predicates
    below say so of every [np.zeros] of a wrapper: lines 183, 196-201 and
    215-221 of [nsev_slow_wrapper], lines 150, 155 and 157 of
    [nsep_wrapper]. *)
Definition np_zeros_ok `{Env} (n : Z) : Prop := 0 ≤ n ≤ np_max_size.

Definition nsev_slow_sizes_ok `{Env} (D M K : Z)
    (options : NsevSlowOptionsStruct) : Prop :=
  np_zeros_ok (ctypes_uint D) ∧
  (discspec_type options = 0 ∨ discspec_type options = 1 → np_zeros_ok K) ∧
  (discspec_type options = 2 → np_zeros_ok (2 * K) ∧ np_zeros_ok K) ∧
  (contspec_type options = 0 → np_zeros_ok M) ∧
  (contspec_type options = 1 → np_zeros_ok (2 * M)) ∧
  (contspec_type options = 2 → np_zeros_ok (3 * M)).

Definition nsep_sizes_ok `{Env} (D : Z) : Prop :=
  np_zeros_ok (ctypes_uint D) ∧
  np_zeros_ok (ctypes_uint (4 * ctypes_uint D)) ∧
  np_zeros_ok (ctypes_uint (2 * ctypes_uint D)).

(** The entries of a result dictionary. *)
Definition keys (rd : rdict) : gset string := dom rd.

(** The entries of every dictionary [nsep_wrapper] builds. *)
Definition nsep_keys : gset string :=
  {["return_value"; "K"; "main"; "M"; "aux"; "options"]}.

(** The entries of every dictionary [nsev_inverse_wrapper] builds. *)
Definition nsev_inverse_keys : gset string :=
  {["return_value"; "q"; "options"]}.

(** ** A concrete library to run the wrappers against

    [stub_env status] is a stand-in for the collaborators: 64-bit
    [ctypes_uint], 32-bit [ctypes_int], the limits of numpy on a 64-bit
    platform with 16-byte complex entries, C functions that return [status],
    overwrite the sample buffer they are handed and report fixed spectra,
    and a [check_return_code] that raises on a non-zero status. *)
Definition cplx (re im : double) : complex := (re, im).
Arguments cplx (re im)%_float.

Definition stub_nsep (status : Z) (a : NsepArgs) : NsepOut :=
  {| nsep_o_rv := status;
     nsep_o_q := map (λ _, cplx 9 9) (nsep_a_q a);
     nsep_o_K := 3;
     nsep_o_main_spec := [cplx 1 1; cplx 2 2; cplx 3 3];
     nsep_o_M := 1;
     nsep_o_aux_spec := [cplx 4 4] |}.

Definition stub_nsev_slow (status : Z) (a : NsevSlowArgs) : NsevSlowOut :=
  {| slow_o_rv := status;
     slow_o_q := map (λ _, cplx 9 9) (slow_a_q a);
     slow_o_cont := [cplx 1 0; cplx 2 0; cplx 3 0; cplx 4 0; cplx 5 0; cplx 6 0];
     slow_o_K := match slow_a_boundstates a with Some _ => 1 | None => 0 end;
     slow_o_boundstates := [cplx 0 1];
     slow_o_discspec := [cplx 7 0; cplx 8 0] |}.

Definition stub_nsev_inverse (status : Z) (a : NsevInverseArgs) : NsevInverseOut :=
  {| inv_o_rv := status;
     inv_o_contspec := map (λ _, cplx 9 9) (inv_a_contspec a);
     inv_o_boundstates := [];
     inv_o_discspec := [];
     inv_o_q := [cplx 1 0; cplx 2 0; cplx 3 0] |}.

Definition stub_nsev_inverse_XI (status : Z) (a : NsevInverseXiArgs) : NsevInverseXiOut :=
  {| xi_o_rv := status;
     xi_o_Xi := ((- 4)%float, 4%float) |}.

Definition stub_nsev_slow_options (bsf bsl niter dst cst dis ref : option Z)
    : NsevSlowOptionsStruct :=
  {| bound_state_filtering := default 2 bsf;
     bound_state_localization := default 2 bsl;
     niter := default 10 niter;
     discspec_type := default 0 dst;
     contspec_type := default 0 cst;
     discretization := default 11 dis;
     richardson_extrapolation_flag := default 0 ref |}.

Definition stub_nsev_inverse_options (dis : Z) (cst csim dst max_iter osf : option Z)
    : NsevInverseOptionsStruct :=
  {| inv_discretization := dis;
     inv_contspec_type := default 0 cst;
     inv_contspec_inversion_method := default 0 csim;
     inv_discspec_type := default 0 dst;
     inv_max_iter := default 100 max_iter;
     inv_oversampling_factor := default 8 osf |}.

Definition stub_env (status : Z) : Env :=
  {| uint_bits := 64;
     int_bits := 32;
     np_intp_max := 2 ^ 63 - 1;
     np_max_size := 2 ^ 59 - 1;
     fnft_nsep := stub_nsep status;
     fnft_nsev_slow := stub_nsev_slow status;
     fnft_nsev_inverse := stub_nsev_inverse status;
     fnft_nsev_inverse_XI := stub_nsev_inverse_XI status;
     check_return_code := λ rv,
       if decide (rv = 0) then None else Some (Exn "RuntimeError" "FNFT error");
     get_nsev_slow_options := stub_nsev_slow_options;
     get_nsev_inverse_options := stub_nsev_inverse_options;
     repr_nsep_options := λ _, "NsepOptionsStruct";
     repr_nsev_slow_options := λ _, "NsevSlowOptionsStruct";
     repr_nsev_inverse_options := λ _, "NsevInverseOptionsStruct" |}.

(** The caller's world: a two-sample signal at location 1 and a
    three-point continuous spectrum at location 2. *)
Definition caller_q : loc := 1%positive.
Definition caller_contspec : loc := 2%positive.

Definition caller_world : world :=
  {| heap := {[ caller_q := [cplx 1 0; cplx 2 0];
                caller_contspec := [cplx 1 1; cplx 0 1; cplx 1 0] ]};
     calls := [] |}.

Definition nsep_default_options : NsepOptionsStruct :=
  {| nsep_localization := 2; nsep_filtering := 2; nsep_bounding_box := [];
     nsep_max_evals := 20; nsep_discretization := 2;
     nsep_normalization_flag := 1 |}.

(** The result dictionary of a run, the empty dictionary if it raised. *)
Definition returned (r : outcome rdict * world) : rdict :=
  match r.1 with
  | Ret rd => rd
  | Raise _ => ∅
  end.

(** Whether a run returned normally. *)
Definition returns (r : outcome rdict * world) : bool :=
  match r.1 with
  | Ret _ => true
  | Raise _ => false
  end.

(** A run that was rejected before any computation: it raised, and no
    foreign call was made. *)
Definition rejected_before_computation (w : world) (r : outcome rdict * world) : Prop :=
  (∃ e, r.1 = Raise e) ∧ calls r.2 = calls w.

(** The same collaborators with another [check_return_code]. *)
Definition with_check_return_code (E : Env) (check : Z → option exn) : Env :=
  {| uint_bits := @uint_bits E;
     int_bits := @int_bits E;
     np_intp_max := @np_intp_max E;
     np_max_size := @np_max_size E;
     fnft_nsep := @fnft_nsep E;
     fnft_nsev_slow := @fnft_nsev_slow E;
     fnft_nsev_inverse := @fnft_nsev_inverse E;
     fnft_nsev_inverse_XI := @fnft_nsev_inverse_XI E;
     check_return_code := check;
     get_nsev_slow_options := @get_nsev_slow_options E;
     get_nsev_inverse_options := @get_nsev_inverse_options E;
     repr_nsep_options := @repr_nsep_options E;
     repr_nsev_slow_options := @repr_nsev_slow_options E;
     repr_nsev_inverse_options := @repr_nsev_inverse_options E |}.

(** Runs against the stand-in library. *)

(** [nsep_wrapper] on the caller's two samples, the library returning
    [status]. *)
Definition nsep_run (status : Z) : outcome rdict * world :=
  nsep_wrapper (H := stub_env status) 2 caller_q 0%float 1%float 1
    nsep_default_options caller_world.

(** [nsev_slow_wrapper] with [M = 3], [K = 4] and the two selectors
    [dst] and [cst]. *)
Definition slow_options (dst cst : Z) : NsevSlowOptionsStruct :=
  stub_nsev_slow_options None None None (Some dst) (Some cst) None None.

Definition slow_run (status dst cst : Z) : outcome rdict * world :=
  nsev_slow_wrapper (H := stub_env status) 2 caller_q 0%float 1%float
    (-2)%float 2%float 3 4 1 (slow_options dst cst) caller_world.

(** [nsev_inverse] on the caller's spectrum and a three-point time
    vector. *)
Definition inverse_tvec : list double := [0; 0.5; 1]%float.

Definition inverse_run (status : Z) : outcome rdict * world :=
  nsev_inverse (H := stub_env status) caller_contspec inverse_tvec 1 4
    None None None None None caller_world.

(** [nsev_inverse_wrapper] on the caller's spectrum, without bound
    states. *)
Definition inverse_wrapper_run (status : Z) : outcome rdict * world :=
  nsev_inverse_wrapper (H := stub_env status) 3 caller_contspec
    (-4)%float 4%float 0 None None 3 0%float 1%float 1
    (stub_nsev_inverse_options 4 None None None None None) caller_world.

(** ** A weakest-precondition reading of wrapper code

    [wp m Q w]: running [m] from world [w] ends in an outcome and a world
    that satisfy [Q].  The rules below walk through a wrapper statement by
    statement; a rule leaves one premise per way the statement can end. *)
Definition wp {A} (m : py A) (Q : outcome A → world → Prop) (w : world) : Prop :=
  Q (m w).1 (m w).2.

(** The calls logged between two worlds. *)
Definition calls_since (w w' : world) (new : list ccall) : Prop :=
  calls w' = calls w ++ new.

(** Every array that exists in [w] has the same contents in [w']. *)
Definition arrays_unchanged (w w' : world) : Prop :=
  ∀ l, is_Some (heap w !! l) → heap w' !! l = heap w !! l.

Section ProgramLogic.
Context `{Env}.

Lemma wp_elim {A} (m : py A) Q w o w' : wp m Q w → m w = (o, w') → Q o w'.
Proof. unfold wp. intros HQ Hrun. by rewrite Hrun in HQ. Qed.

Lemma wp_intro {A} (m : py A) (Q : outcome A → world → Prop) w :
  (∀ o w', m w = (o, w') → Q o w') → wp m Q w.
Proof. unfold wp. intros HQ. apply HQ. by destruct (m w). Qed.

Lemma wp_mono {A} (m : py A) (Q Q' : outcome A → world → Prop) w :
  wp m Q w → (∀ o w', Q o w' → Q' o w') → wp m Q' w.
Proof. unfold wp. auto. Qed.

Lemma wp_ret {A} (a : A) (Q : outcome A → world → Prop) w :
  Q (Ret a) w → wp (mret a) Q w.
Proof. done. Qed.

Lemma wp_raise {A} e (Q : outcome A → world → Prop) w :
  Q (Raise e) w → wp (raise e) Q w.
Proof. done. Qed.

Lemma wp_bind {A B} (m : py A) (f : A → py B) (Q : outcome B → world → Prop) w :
  wp m (λ o w1, match o with
                | Ret a => wp (f a) Q w1
                | Raise e => Q (Raise e) w1
                end) w →
  wp (m ≫= f) Q w.
Proof.
  unfold wp, mbind, py_mbind, py_bind.
  by destruct (m w) as [[a|e] w1].
Qed.

Lemma wp_np_zeros n (Q : outcome loc → world → Prop) w :
  (n < 0 → Q (Raise (ValueError "negative dimensions are not allowed")) w) →
  (0 ≤ n → np_max_size < n → Q (Raise (ValueError (np_too_big n))) w) →
  (0 ≤ n → n ≤ np_max_size → ∀ l, l ∉ dom (heap w) →
     Q (Ret l) (World (<[l := replicate (Z.to_nat n) complex_zero]> (heap w)) (calls w))) →
  wp (np_zeros n) Q w.
Proof.
  intros Hneg Hbig Hok. unfold wp, np_zeros.
  destruct (decide (n < 0)); [simpl; auto|].
  destruct (decide (np_max_size < n)); simpl.
  - apply Hbig; lia.
  - apply Hok; [lia | lia | apply is_fresh].
Qed.

Lemma wp_get_array l (Q : outcome (list complex) → world → Prop) w :
  (∀ xs, heap w !! l = Some xs → Q (Ret xs) w) →
  (heap w !! l = None → Q (Raise (TypeError "object is not subscriptable")) w) →
  wp (get_array l) Q w.
Proof.
  intros Hsome Hnone. unfold wp, get_array.
  destruct (heap w !! l) as [xs|]; simpl; auto.
Qed.

Lemma wp_len l (Q : outcome Z → world → Prop) w :
  (∀ xs, heap w !! l = Some xs → Q (Ret (Z.of_nat (length xs))) w) →
  (heap w !! l = None → Q (Raise (TypeError "object is not subscriptable")) w) →
  wp (len l) Q w.
Proof.
  intros Hsome Hnone. unfold len. apply wp_bind, wp_get_array; [|done].
  intros xs Hxs. by apply wp_ret, Hsome.
Qed.

Lemma wp_setitem_all dst src (Q : outcome () → world → Prop) w :
  (∀ old new, heap w !! dst = Some old →
     broadcast_to (length old) src = Some new →
     Q (Ret ()) (World (<[dst := new]> (heap w)) (calls w))) →
  (∀ old, heap w !! dst = Some old → broadcast_to (length old) src = None →
     Q (Raise (ValueError "could not broadcast input array")) w) →
  (heap w !! dst = None →
     Q (Raise (TypeError "object does not support item assignment")) w) →
  wp (setitem_all dst src) Q w.
Proof.
  intros Hok Hshape Hnone. unfold wp, setitem_all.
  destruct (heap w !! dst) as [old|] eqn:Hdst; simpl; [|auto].
  destruct (broadcast_to (length old) src) as [new|] eqn:Hb; simpl; eauto.
Qed.

Lemma wp_getslice_array l i j (Q : outcome pyval → world → Prop) w :
  (∀ xs, heap w !! l = Some xs → Q (Ret (PArr (py_slice xs i j))) w) →
  (heap w !! l = None → Q (Raise (TypeError "object is not subscriptable")) w) →
  wp (getslice (Ndarray l) i j) Q w.
Proof.
  intros Hsome Hnone. simpl. apply wp_bind, wp_get_array; [|done].
  intros xs Hxs. by apply wp_ret, Hsome.
Qed.

Lemma wp_getslice_null i j (Q : outcome pyval → world → Prop) w :
  (i < j → Q (Raise null_slice_error) w) →
  (j ≤ i → Q (Ret (PList [])) w) →
  wp (getslice Nullptr i j) Q w.
Proof.
  intros Hraise Hok. simpl. destruct (decide (i < j)).
  - by apply wp_raise, Hraise.
  - apply wp_ret, Hok. lia.
Qed.

Lemma wp_load_array l (Q : outcome (option (list complex)) → world → Prop) w :
  (∀ xs, heap w !! l = Some xs → Q (Ret (Some xs)) w) →
  (heap w !! l = None → Q (Raise (TypeError "object is not subscriptable")) w) →
  wp (load (Ndarray l)) Q w.
Proof.
  intros Hsome Hnone. simpl. apply wp_bind, wp_get_array; [|done].
  intros xs Hxs. by apply wp_ret, Hsome.
Qed.

Lemma wp_load_null (Q : outcome (option (list complex)) → world → Prop) w :
  Q (Ret None) w → wp (load Nullptr) Q w.
Proof. done. Qed.

Lemma wp_store l new (Q : outcome () → world → Prop) w :
  (∀ old, heap w !! l = Some old →
     Q (Ret ()) (World (<[l := write_back old new]> (heap w)) (calls w))) →
  (heap w !! l = None →
     Q (Raise (TypeError "object does not support item assignment")) w) →
  wp (store l new) Q w.
Proof.
  intros Hsome Hnone. unfold wp, store.
  destruct (heap w !! l) as [old|]; simpl; auto.
Qed.

Lemma wp_store_null new (Q : outcome () → world → Prop) w :
  Q (Ret ()) w → wp (store_buffer Nullptr new) Q w.
Proof. done. Qed.

Lemma wp_log_call c (Q : outcome () → world → Prop) w :
  Q (Ret ()) (World (heap w) (calls w ++ [c])) → wp (log_call c) Q w.
Proof. done. Qed.

Lemma wp_do_check_return_code rv (Q : outcome () → world → Prop) w :
  (check_return_code rv = None → Q (Ret ()) w) →
  (∀ e, check_return_code rv = Some e → Q (Raise e) w) →
  wp (do_check_return_code rv) Q w.
Proof.
  intros Hnone Hsome. unfold do_check_return_code.
  destruct (check_return_code rv) as [e|].
  - by apply wp_raise, Hsome.
  - by apply wp_ret, Hnone.
Qed.

Lemma wp_np_min xs (Q : outcome double → world → Prop) w :
  (∀ v, amin xs = Some v → Q (Ret v) w) →
  (amin xs = None →
     Q (Raise (ValueError "zero-size array to reduction operation minimum which has no identity")) w) →
  wp (np_min xs) Q w.
Proof.
  intros Hsome Hnone. unfold np_min. destruct (amin xs) as [v|].
  - by apply wp_ret, Hsome.
  - by apply wp_raise, Hnone.
Qed.

Lemma wp_np_max xs (Q : outcome double → world → Prop) w :
  (∀ v, amax xs = Some v → Q (Ret v) w) →
  (amax xs = None →
     Q (Raise (ValueError "zero-size array to reduction operation maximum which has no identity")) w) →
  wp (np_max xs) Q w.
Proof.
  intros Hsome Hnone. unfold np_max. destruct (amax xs) as [v|].
  - by apply wp_ret, Hsome.
  - by apply wp_raise, Hnone.
Qed.

(** A property of every normal return. *)
Lemma wp_returns {A} (m : py A) (P : A → world → Prop) w :
  wp m (λ o w1, match o with Ret a => P a w1 | Raise _ => True end) w →
  ∀ a w', m w = (Ret a, w') → P a w'.
Proof. intros Hwp a w' Hrun. by apply (wp_elim _ _ _ _ _ Hwp Hrun). Qed.

(** ctypes integers *)

Lemma ctypes_uint_small n : 0 ≤ n < 2 ^ Z.of_nat uint_bits → ctypes_uint n = n.
Proof. intros Hn. unfold ctypes_uint. by apply Z.mod_small. Qed.

Lemma ctypes_uint_nonneg n : 0 ≤ ctypes_uint n.
Proof. unfold ctypes_uint. apply Z.mod_pos_bound. lia. Qed.

Lemma ctypes_uint_0 : ctypes_uint 0 = 0.
Proof. unfold ctypes_uint. apply Z.mod_0_l. lia. Qed.

(** Lists *)

Lemma length_write_back old new : length (write_back old new) = length old.
Proof.
  unfold write_back. rewrite length_app, length_take, length_drop. lia.
Qed.

Lemma broadcast_to_length {A} n (src new : list A) :
  broadcast_to n src = Some new → length new = n.
Proof.
  unfold broadcast_to. destruct (decide (length src = n)).
  - by intros [= <-].
  - destruct src as [|x [|y r]]; intros [= <-]. apply length_replicate.
Qed.

Lemma broadcast_to_same {A} (src : list A) :
  broadcast_to (length src) src = Some src.
Proof. unfold broadcast_to. by rewrite decide_True. Qed.

Lemma py_slice_prefix {A} (xs : list A) (k : Z) :
  0 ≤ k → py_slice xs 0 k = take (Z.to_nat k) xs.
Proof.
  intros Hk. unfold py_slice, clip_index.
  rewrite (proj2 (Z.ltb_ge 0 0)), (proj2 (Z.ltb_ge k 0)) by lia.
  rewrite (Z.min_l 0), Z.sub_0_r by lia.
  change (Z.to_nat 0) with 0%nat. rewrite drop_0.
  destruct (Z.min_spec k (Z.of_nat (length xs))) as [[Hlt ->]|[Hge ->]]; [done|].
  rewrite Nat2Z.id, !take_ge; [done | lia ..].
Qed.

Lemma py_slice_range {A} (xs : list A) (i j : Z) :
  0 ≤ i → i ≤ j →
  py_slice xs i j = take (Z.to_nat (j - i)) (drop (Z.to_nat i) xs).
Proof.
  intros Hi Hij. unfold py_slice, clip_index.
  rewrite (proj2 (Z.ltb_ge i 0)), (proj2 (Z.ltb_ge j 0)) by lia.
  destruct (Z.min_spec i (Z.of_nat (length xs))) as [[Hlt ->]|[Hge ->]];
    destruct (Z.min_spec j (Z.of_nat (length xs))) as [[Hlt' ->]|[Hge' ->]];
    try lia.
  - done.
  - rewrite !take_ge; [done | rewrite length_drop; lia ..].
  - rewrite Nat2Z.id, !drop_ge; [by rewrite !take_nil | lia ..].
Qed.

Lemma py_slice_second {A} (xs : list A) (k : Z) :
  0 ≤ k →
  py_slice xs k (2 * k) = take (Z.to_nat k) (drop (Z.to_nat k) xs).
Proof.
  intros Hk. rewrite py_slice_range by lia. do 2 f_equal. lia.
Qed.

End ProgramLogic.

(** ** Walking through a wrapper *)

Ltac wp_simpl :=
  cbv beta iota;
  cbn beta iota delta [heap calls fst snd store_buffer load getitem_all].

(** One statement: the rule of the statement at the head of the program. *)
Ltac wp_step :=
  lazymatch goal with
  | |- wp (let x := ?v in @?m x) ?Q ?w =>
      let y := fresh x in
      pose (y := v); change (wp (m y) Q w)
  | |- wp (mbind _ _) _ _ => apply wp_bind; wp_step
  | |- wp (if decide ?P then _ else _) _ _ =>
      destruct (decide P); try (exfalso; lia)
  | |- wp (getitem_all ?x) _ _ => destruct x
  | |- wp (mret _) _ _ => apply wp_ret
  | |- wp (raise _) _ _ => apply wp_raise
  | |- wp (np_zeros _) _ _ => apply wp_np_zeros
  | |- wp (get_array _) _ _ => apply wp_get_array
  | |- wp (len _) _ _ => apply wp_len
  | |- wp (np_min _) _ _ => apply wp_np_min
  | |- wp (np_max _) _ _ => apply wp_np_max
  | |- wp (setitem_all _ _) _ _ => apply wp_setitem_all
  | |- wp (getslice (Ndarray _) _ _) _ _ => apply wp_getslice_array
  | |- wp (getslice Nullptr _ _) _ _ => apply wp_getslice_null
  | |- wp (store _ _) _ _ => apply wp_store
  | |- wp (log_call _) _ _ => apply wp_log_call
  | |- wp (do_check_return_code _) _ _ => apply wp_do_check_return_code
  end; wp_simpl.

(** Two locations differ: one is fresh for a heap that holds the other. *)
Ltac neq_tac :=
  solve [ congruence
        | let E := fresh in
          intros E;
          match goal with
          | Hf : ?l ∉ dom ?h, Hq : ?h !! ?l' = Some _ |- _ =>
              first [ rewrite E in Hf | rewrite <- E in Hf ];
              apply Hf, elem_of_dom; eauto
          end ].

(** A location fresh for a heap built by insertions is fresh for the
    heap underneath and differs from every inserted location. *)
Ltac split_fresh Hf :=
  repeat (rewrite dom_insert_L in Hf;
          let Hne := fresh "Hne" in
          apply not_elem_of_union in Hf as [Hne Hf];
          apply not_elem_of_singleton in Hne).

Ltac norm_lookup Hx :=
  repeat first [ rewrite lookup_insert_eq in Hx
               | rewrite lookup_insert_ne in Hx by neq_tac ];
  try match type of Hx with
      | ?h !! ?l = _ =>
          match goal with
          | Hq : h !! l = Some _ |- _ =>
              tryif constr_eq Hq Hx then fail else rewrite Hq in Hx
          end
      end;
  first [ discriminate Hx
        | injection Hx as <-
        | idtac ].

Ltac wp_intros :=
  match goal with
  | |- ∀ l : loc, l ∉ dom _ → _ =>
      let l := fresh "l" in
      let Hf := fresh "Hfresh" in
      intros l Hf; split_fresh Hf
  | |- _ ≤ _ → _ => intros ?
  | |- _ < _ → _ => intros ?
  | |- ∀ old new, _ !! _ = Some _ → _ =>
      let old := fresh "old" in
      let new := fresh "new" in
      let Hx := fresh "Hx" in
      let Hb := fresh "Hb" in
      intros old new Hx Hb; norm_lookup Hx
  | |- ∀ xs, _ !! _ = Some _ → _ =>
      let xs := fresh "xs" in
      let Hx := fresh "Hx" in
      intros xs Hx; norm_lookup Hx
  | |- _ !! _ = None → _ =>
      let Hx := fresh "Hx" in
      intros Hx; norm_lookup Hx
  | |- broadcast_to _ _ = _ → _ => intros ?
  | |- check_return_code _ = None → _ => intros ?
  | |- ∀ e, check_return_code _ = Some e → _ => intros ? ?
  | |- ∀ v, amin _ = Some v → _ => intros ? ?
  | |- ∀ v, amax _ = Some v → _ => intros ? ?
  | |- amin _ = None → _ => intros ?
  | |- amax _ = None → _ => intros ?
  end.

(** The whole wrapper: what is left is the postcondition at every exit. *)
Ltac wp_go := repeat (wp_step; repeat wp_intros).

Ltac solve_frame :=
  let l := fresh "l" in
  let x := fresh "x" in
  let Hl := fresh "Hl" in
  unfold arrays_unchanged; intros l [x Hl]; cbn [heap];
  rewrite ?lookup_insert_ne by neq_tac; reflexivity.

(** Unfolding that keeps the [let]s of the wrappers. *)
Ltac unfold_wrappers :=
  cbv beta delta [nsep_wrapper call_fnft_nsep
    nsev_slow_wrapper call_fnft_nsev_slow nsev_slow_alloc_disc
    nsev_slow_alloc_cont nsev_slow_disc_output nsev_slow_cont_output
    nsev_inverse_wrapper call_fnft_nsev_inverse
    nsev_inverse_xi_wrapper call_fnft_nsev_inverse_XI].

Ltac unfold_lets := repeat match goal with x := _ |- _ => subst x end.

(** Lookups in a dictionary built by insertions under literal keys. *)
Ltac rd_norm :=
  repeat first [ rewrite lookup_insert_eq
               | rewrite lookup_insert_ne by done
               | rewrite lookup_empty ].

(** * Properties *)

(** ** What [nsev_slow_wrapper] hands over and what it returns

    Every normal return of [nsev_slow_wrapper] has made exactly one call
    of [fnft_nsev_slow]; the argument record of that call determines the
    dictionary. *)
Lemma nsev_slow_wrapper_returns `{Env} D q T1 T2 Xi1 Xi2 M K kappa options w rd w' :
  nsev_slow_wrapper D q T1 T2 Xi1 Xi2 M K kappa options w = (Ret rd, w') →
  ∃ a,
    calls_since w w' [Call_nsev_slow a] ∧
    slow_a_options a = options ∧
    slow_a_boundstates a =
      (if decide (disc_requested options)
       then Some (replicate (Z.to_nat K) complex_zero) else None) ∧
    slow_a_discspec a =
      (if decide (discspec_type options = 0 ∨ discspec_type options = 1)
       then Some (replicate (Z.to_nat K) complex_zero)
       else if decide (discspec_type options = 2)
       then Some (replicate (Z.to_nat (2 * K)) complex_zero) else None) ∧
    slow_a_cont a =
      (if decide (contspec_type options = 0)
       then Some (replicate (Z.to_nat M) complex_zero)
       else if decide (contspec_type options = 1)
       then Some (replicate (Z.to_nat (2 * M)) complex_zero)
       else if decide (contspec_type options = 2)
       then Some (replicate (Z.to_nat (3 * M)) complex_zero) else None) ∧
    (disc_requested options → 0 ≤ K) ∧
    (cont_requested options → 0 ≤ M) ∧
    (¬ disc_requested options → slow_K_new a = 0) ∧
    check_return_code (ctypes_int (slow_o_rv (fnft_nsev_slow a))) = None ∧
    rd !! "return_value" = Some (PInt (ctypes_int (slow_o_rv (fnft_nsev_slow a)))) ∧
    rd !! "bound_states_num" = Some (PInt (slow_K_new a)) ∧
    rd !! "bound_states" =
      Some (if decide (disc_requested options)
            then PArr (take (Z.to_nat (slow_K_new a)) (slow_boundstates_after a))
            else PList []) ∧
    rd !! "disc_norm" =
      (if decide (discspec_type options = 0 ∨ discspec_type options = 2)
       then Some (PArr (take (Z.to_nat (slow_K_new a)) (slow_discspec_after a)))
       else None) ∧
    rd !! "disc_res" =
      (if decide (discspec_type options = 1)
       then Some (PArr (take (Z.to_nat (slow_K_new a)) (slow_discspec_after a)))
       else if decide (discspec_type options = 2)
       then Some (PArr (take (Z.to_nat (slow_K_new a))
                          (drop (Z.to_nat (slow_K_new a)) (slow_discspec_after a))))
       else None) ∧
    rd !! "cont_ref" =
      (if decide (contspec_type options = 0 ∨ contspec_type options = 2)
       then Some (PArr (py_slice (slow_cont_after a) 0 M)) else None) ∧
    rd !! "cont_a" =
      (if decide (contspec_type options = 1)
       then Some (PArr (py_slice (slow_cont_after a) 0 M))
       else if decide (contspec_type options = 2)
       then Some (PArr (py_slice (slow_cont_after a) M (2 * M))) else None) ∧
    rd !! "cont_b" =
      (if decide (contspec_type options = 1)
       then Some (PArr (py_slice (slow_cont_after a) M (2 * M)))
       else if decide (contspec_type options = 2)
       then Some (PArr (py_slice (slow_cont_after a) (2 * M) (3 * M))) else None).
Proof.
  revert rd w'. apply wp_returns.
  unfold disc_requested, cont_requested. unfold_wrappers.
  wp_go; try exact I.
  all: rd_norm.
  all: eexists; split; [reflexivity|].
  all: unfold_lets.
  all: unfold slow_K_new, slow_boundstates_after, slow_discspec_after, slow_cont_after;
       cbn [slow_a_options slow_a_boundstates slow_a_discspec slow_a_cont after].
  all: repeat first [ rewrite decide_True by lia | rewrite decide_False by lia ].
  all: rewrite ?py_slice_prefix by apply ctypes_uint_nonneg.
  all: rewrite ?py_slice_second by apply ctypes_uint_nonneg.
  all: repeat split; try done; try lia.
  all: intros _;
       match goal with
       | Hle : ctypes_uint ?x ≤ 0 |- _ => pose proof (ctypes_uint_nonneg x)
       end; lia.
Qed.

(** Reading a guarded optional value. *)
Lemma is_Some_guard {A} (P : Prop) `{Decision P} (x : A) :
  is_Some (if decide P then Some x else None) ↔ P.
Proof. case_decide; split; try done. Qed.

Lemma is_Some_guard2 {A} (P Q : Prop) `{Decision P, Decision Q} (x y : A) :
  is_Some (if decide P then Some x else if decide Q then Some y else None) ↔ P ∨ Q.
Proof.
  repeat case_decide; split; try done; try tauto; eauto.
Qed.

Lemma guard_None {A} (P : Prop) `{Decision P} (x : A) :
  (if decide P then Some x else None) = None ↔ ¬ P.
Proof. case_decide; split; done. Qed.

Lemma guard2_None {A} (P Q : Prop) `{Decision P, Decision Q} (x y : A) :
  (if decide P then Some x else if decide Q then Some y else None) = None ↔ ¬ (P ∨ Q).
Proof. repeat case_decide; split; try done; tauto. Qed.

Lemma guard3_None {A} (P Q R : Prop) `{Decision P, Decision Q, Decision R} (x y z : A) :
  (if decide P then Some x else if decide Q then Some y
   else if decide R then Some z else None) = None ↔ ¬ (P ∨ Q ∨ R).
Proof. repeat case_decide; split; try done; tauto. Qed.

(** C4.  A result dictionary of [nsev_slow_wrapper] holds the key of a
    spectral output exactly when the selector asks for it: [disc_norm] for
    [discspec_type] 0 and 2, [disc_res] for 1 and 2, [cont_ref] for
    [contspec_type] 0 and 2, [cont_a] and [cont_b] for 1 and 2.  For any
    other selector value the keys are absent, and the C function received
    the null pointer for that output. *)
Theorem nsev_slow_wrapper_result_keys `{Env} D q T1 T2 Xi1 Xi2 M K kappa options w rd w' :
  nsev_slow_wrapper D q T1 T2 Xi1 Xi2 M K kappa options w = (Ret rd, w') →
  (is_Some (rd !! "disc_norm") ↔ discspec_type options = 0 ∨ discspec_type options = 2) ∧
  (is_Some (rd !! "disc_res") ↔ discspec_type options = 1 ∨ discspec_type options = 2) ∧
  (is_Some (rd !! "cont_ref") ↔ contspec_type options = 0 ∨ contspec_type options = 2) ∧
  (is_Some (rd !! "cont_a") ↔ contspec_type options = 1 ∨ contspec_type options = 2) ∧
  (is_Some (rd !! "cont_b") ↔ contspec_type options = 1 ∨ contspec_type options = 2) ∧
  ∃ a,
    calls_since w w' [Call_nsev_slow a] ∧
    (slow_a_discspec a = None ↔ ¬ disc_requested options) ∧
    (slow_a_boundstates a = None ↔ ¬ disc_requested options) ∧
    (slow_a_cont a = None ↔ ¬ cont_requested options).
Proof.
  intros Hrun.
  destruct (nsev_slow_wrapper_returns _ _ _ _ _ _ _ _ _ _ _ _ _ Hrun)
    as (a & Hcalls & _ & Hbs & Hds & Hcont & _ & _ & _ & _ & _ & _ & _
        & Hnorm & Hres & Href & Hca & Hcb).
  rewrite Hnorm, Hres, Href, Hca, Hcb.
  rewrite !is_Some_guard, !is_Some_guard2.
  repeat split; try done.
  exists a. rewrite Hbs, Hds, Hcont.
  rewrite guard_None, guard2_None, guard3_None.
  unfold disc_requested, cont_requested. split; [done|]. tauto.
Qed.

(** Deciding the guards over the selector values once they are known. *)
Ltac decide_guards :=
  repeat first
    [ rewrite decide_True by (unfold disc_requested, cont_requested in *; lia)
    | rewrite decide_False by (unfold disc_requested, cont_requested in *; lia) ].

(** C5.  After a normal return of [nsev_slow_wrapper] the dictionary
    reports the count [K_new] the C function left in [K]; when that count
    respects the maximum ([K_new <= K]) the arrays [bound_states],
    [disc_norm] and [disc_res] all have length [K_new]; and entry [i] of
    each of them is entry [i] of what the C function left for bound state
    [i]: of the bound-state buffer, of the first block of the coefficient
    buffer, and, when both kinds are requested, of its second block, which
    starts at [K_new]. *)
Theorem nsev_slow_wrapper_bound_state_arrays `{Env}
    D q T1 T2 Xi1 Xi2 M K kappa options w rd w' :
  nsev_slow_wrapper D q T1 T2 Xi1 Xi2 M K kappa options w = (Ret rd, w') →
  ∃ a,
    calls_since w w' [Call_nsev_slow a] ∧
    rd !! "bound_states_num" = Some (PInt (slow_K_new a)) ∧
    is_Some (rd !! "bound_states") ∧
    (slow_K_new a ≤ K →
       (∀ v, rd !! "bound_states" = Some v → pyval_len v = Z.to_nat (slow_K_new a)) ∧
       (∀ v, rd !! "disc_norm" = Some v → pyval_len v = Z.to_nat (slow_K_new a)) ∧
       (∀ v, rd !! "disc_res" = Some v → pyval_len v = Z.to_nat (slow_K_new a))) ∧
    (∀ i : nat, (i < Z.to_nat (slow_K_new a))%nat →
       (disc_requested options →
          array_item rd "bound_states" i = slow_boundstates_after a !! i) ∧
       (discspec_type options = 0 ∨ discspec_type options = 2 →
          array_item rd "disc_norm" i = slow_discspec_after a !! i) ∧
       (discspec_type options = 1 →
          array_item rd "disc_res" i = slow_discspec_after a !! i) ∧
       (discspec_type options = 2 →
          array_item rd "disc_res" i =
          slow_discspec_after a !! (Z.to_nat (slow_K_new a) + i)%nat)).
Proof.
  intros Hrun.
  destruct (nsev_slow_wrapper_returns _ _ _ _ _ _ _ _ _ _ _ _ _ Hrun)
    as (a & Hcalls & _ & Hbs & Hds & _ & HK & _ & Hskip & _ & _ & Hnum & Hstates
        & Hnorm & Hres & _).
  exists a. split; [done|]. split; [done|].
  split; [by rewrite Hstates|].
  unfold array_item. rewrite Hstates, Hnorm, Hres.
  unfold slow_boundstates_after, slow_discspec_after. rewrite Hbs, Hds.
  assert (discspec_type options = 0 ∨ discspec_type options = 1 ∨
          discspec_type options = 2 ∨ ¬ disc_requested options) as Hcases
    by (unfold disc_requested; lia).
  destruct Hcases as [Hd|[Hd|[Hd|Hd]]]; decide_guards; cbn [after].
  all: try (assert (0 ≤ K) by (apply HK; unfold disc_requested; lia)).
  all: split;
    [ intros Hle; repeat split; intros v [= <-]
    | intros i Hi; repeat split; intros Hdst; try lia ].
  all: cbn [pyval_len];
    rewrite ?length_take, ?length_drop, ?length_write_back, ?length_replicate;
    rewrite ?lookup_take_lt, ?lookup_drop by done;
    try done; try lia.
  by rewrite Hskip.
Qed.

(** C6.  With [0 <= D] and [4 * D] below the range of [ctypes_uint],
    [nsep_wrapper] hands [fnft_nsep] a main-spectrum buffer of exactly
    [4 * D] zeros and an auxiliary buffer of exactly [2 * D] zeros,
    announced as such in [K] and [M]; the arrays [main] and [aux] it
    returns are the first [K] and [M] entries of these buffers after the
    call, for the counts the C function reported, so they never exceed
    [4 * D] and [2 * D] entries and have exactly [K] and [M] entries when
    the reported counts are within the announced sizes. *)
Theorem nsep_wrapper_spectrum_sizes `{Env} D q T1 T2 kappa options w rd w' :
  0 ≤ D → 4 * D < 2 ^ Z.of_nat uint_bits →
  nsep_wrapper D q T1 T2 kappa options w = (Ret rd, w') →
  ∃ a,
    calls_since w w' [Call_nsep a] ∧
    nsep_a_K a = 4 * D ∧
    nsep_a_main_spec a = replicate (Z.to_nat (4 * D)) complex_zero ∧
    nsep_a_M a = 2 * D ∧
    nsep_a_aux_spec a = replicate (Z.to_nat (2 * D)) complex_zero ∧
    rd !! "K" = Some (PInt (nsep_K_new a)) ∧
    rd !! "main" = Some (PArr (take (Z.to_nat (nsep_K_new a)) (nsep_main_after a))) ∧
    rd !! "M" = Some (PInt (nsep_M_new a)) ∧
    rd !! "aux" = Some (PArr (take (Z.to_nat (nsep_M_new a)) (nsep_aux_after a))) ∧
    (length (take (Z.to_nat (nsep_K_new a)) (nsep_main_after a)) ≤ Z.to_nat (4 * D))%nat ∧
    (length (take (Z.to_nat (nsep_M_new a)) (nsep_aux_after a)) ≤ Z.to_nat (2 * D))%nat ∧
    (nsep_K_new a ≤ 4 * D →
       length (take (Z.to_nat (nsep_K_new a)) (nsep_main_after a)) = Z.to_nat (nsep_K_new a)) ∧
    (nsep_M_new a ≤ 2 * D →
       length (take (Z.to_nat (nsep_M_new a)) (nsep_aux_after a)) = Z.to_nat (nsep_M_new a)).
Proof.
  intros HD Hsmall. revert rd w'. apply wp_returns.
  unfold_wrappers.
  wp_go; try exact I.
  rd_norm. eexists. split; [reflexivity|]. unfold_lets.
  unfold nsep_K_new, nsep_M_new, nsep_main_after, nsep_aux_after.
  cbn [nsep_a_K nsep_a_main_spec nsep_a_M nsep_a_aux_spec].
  rewrite !(ctypes_uint_small D), (ctypes_uint_small (4 * D)),
    (ctypes_uint_small (2 * D)) by lia.
  rewrite !py_slice_prefix by apply ctypes_uint_nonneg.
  repeat split; try done.
  all: rewrite length_take, length_write_back, length_replicate; lia.
Qed.

(** ** The calls a wrapper makes and the arrays it touches

    Whatever way a wrapper ends, the arrays that existed before the call
    are as they were; and it has either raised before reaching the C
    function, or made exactly one call, on a private copy of the
    caller's samples. *)

(** The caller's array, read back through the wrapper's fresh buffers. *)
Ltac caller_array Hx qv Hqv :=
  rewrite ?lookup_insert_ne in Hx by neq_tac;
  rewrite Hqv in Hx; first [ discriminate Hx | injection Hx as <- ].

Lemma nsep_wrapper_effects `{Env} D q T1 T2 kappa options w :
  wp (nsep_wrapper D q T1 T2 kappa options)
     (λ o w',
        arrays_unchanged w w' ∧
        ((calls w' = calls w ∧ ∃ e, o = Raise e) ∨
         ∃ a, calls_since w w' [Call_nsep a] ∧
              ∀ qv, heap w !! q = Some qv →
                    broadcast_to (Z.to_nat (ctypes_uint D))
                      (map (λ z, complex_add z zero_j) qv) = Some (nsep_a_q a))) w.
Proof.
  unfold_wrappers. wp_go.
  all: split; [solve_frame|].
  all: try (left; split; [reflexivity | by eexists]).
  right. eexists. split; [reflexivity|]. unfold_lets. cbn [nsep_a_q].
  intros qv Hqv. caller_array Hx qv Hqv.
  by rewrite length_replicate in Hb.
Qed.

Lemma nsev_slow_wrapper_effects `{Env} D q T1 T2 Xi1 Xi2 M K kappa options w :
  wp (nsev_slow_wrapper D q T1 T2 Xi1 Xi2 M K kappa options)
     (λ o w',
        arrays_unchanged w w' ∧
        ((calls w' = calls w ∧
          ∀ qv, heap w !! q = Some qv →
                broadcast_to (Z.to_nat (ctypes_uint D))
                  (map (λ z, complex_add z zero_j) qv) = None ∨
                ¬ nsev_slow_sizes_ok D M K options) ∨
         ∃ a, calls_since w w' [Call_nsev_slow a] ∧
              slow_a_options a = options ∧
              (¬ disc_requested options →
                 slow_a_boundstates a = None ∧ slow_a_discspec a = None) ∧
              (¬ cont_requested options → slow_a_cont a = None) ∧
              ∀ qv, heap w !! q = Some qv →
                    broadcast_to (Z.to_nat (ctypes_uint D))
                      (map (λ z, complex_add z zero_j) qv) = Some (slow_a_q a))) w.
Proof.
  unfold disc_requested, cont_requested. unfold_wrappers. wp_go.
  all: split; [solve_frame|].
  all: unfold_lets.
  all: try (right; eexists; split; [reflexivity|];
            cbn [slow_a_options slow_a_boundstates slow_a_discspec slow_a_cont slow_a_q];
            repeat split; try done; try (intros; exfalso; lia);
            intros qv Hqv; caller_array Hx qv Hqv;
            by rewrite length_replicate in Hb).
  all: left; split; [reflexivity|]; intros qv Hqv.
  all: try (pose proof (ctypes_uint_nonneg D); exfalso; lia).
  all: try (caller_array Hx qv Hqv; fail).
  all: try (right; unfold nsev_slow_sizes_ok, np_zeros_ok; lia).
  caller_array Hx qv Hqv. left.
  match goal with
  | Hn : broadcast_to _ _ = None |- _ => by rewrite length_replicate in Hn
  end.
Qed.

Lemma nsev_inverse_wrapper_effects `{Env}
    M contspec Xi1 Xi2 K bound_states normconst_or_residues D T1 T2 kappa options w :
  wp (nsev_inverse_wrapper M contspec Xi1 Xi2 K bound_states
        normconst_or_residues D T1 T2 kappa options)
     (λ o w',
        arrays_unchanged w w' ∧
        ((calls w' = calls w ∧ ∃ e, o = Raise e) ∨
         ∃ a, calls_since w w' [Call_nsev_inverse a] ∧
              inv_a_Xi a = (Xi1, Xi2) ∧
              inv_a_K a = ctypes_uint K ∧
              (is_Some (inv_a_boundstates a) ↔ K > 0) ∧
              (is_Some (inv_a_discspec a) ↔ K > 0) ∧
              ∀ cv, heap w !! contspec = Some cv →
                    broadcast_to (Z.to_nat M) cv = Some (inv_a_contspec a))) w.
Proof.
  unfold_wrappers. wp_go.
  all: split; [solve_frame|].
  all: try (left; split; [reflexivity | by eexists]).
  all: right; eexists; split; [reflexivity|]; unfold_lets;
       cbn [inv_a_Xi inv_a_K inv_a_boundstates inv_a_discspec inv_a_contspec].
  all: repeat split; try done; try (by intros [? ?]); try by eexists.
  all: intros cv Hcv; caller_array Hx cv Hcv; by rewrite length_replicate in Hb.
Qed.

(** The calls logged between two worlds are determined by the worlds. *)
Lemma calls_since_inj w w' new new' :
  calls_since w w' new → calls_since w w' new' → new = new'.
Proof.
  unfold calls_since. intros -> Heq. by apply app_inv_head in Heq.
Qed.

Lemma calls_since_none w w' new :
  calls w' = calls w → calls_since w w' new → new = [].
Proof.
  intros Heq Hnew. apply (calls_since_inj w w'); [done|].
  unfold calls_since. by rewrite Heq, app_nil_r.
Qed.

(** C7.  Each of the three wrappers leaves every array that existed
    before the call with its contents, however the call ends; and the
    sample argument of the C function is a copy made by the wrapper: the
    caller's samples plus [0.0j], broadcast into a fresh buffer, for
    [nsep_wrapper] and [nsev_slow_wrapper], the caller's continuous
    spectrum for [nsev_inverse_wrapper]. *)
Theorem wrappers_leave_caller_arrays_unchanged `{Env} (w : world) :
  (∀ D q T1 T2 kappa options o w',
     nsep_wrapper D q T1 T2 kappa options w = (o, w') →
     arrays_unchanged w w' ∧
     ∀ new a qv,
       calls_since w w' new → Call_nsep a ∈ new → heap w !! q = Some qv →
       broadcast_to (Z.to_nat (ctypes_uint D))
         (map (λ z, complex_add z zero_j) qv) = Some (nsep_a_q a)) ∧
  (∀ D q T1 T2 Xi1 Xi2 M K kappa options o w',
     nsev_slow_wrapper D q T1 T2 Xi1 Xi2 M K kappa options w = (o, w') →
     arrays_unchanged w w' ∧
     ∀ new a qv,
       calls_since w w' new → Call_nsev_slow a ∈ new → heap w !! q = Some qv →
       broadcast_to (Z.to_nat (ctypes_uint D))
         (map (λ z, complex_add z zero_j) qv) = Some (slow_a_q a)) ∧
  (∀ M contspec Xi1 Xi2 K bound_states normconst_or_residues D T1 T2 kappa
     options o w',
     nsev_inverse_wrapper M contspec Xi1 Xi2 K bound_states
       normconst_or_residues D T1 T2 kappa options w = (o, w') →
     arrays_unchanged w w' ∧
     ∀ new a cv,
       calls_since w w' new → Call_nsev_inverse a ∈ new →
       heap w !! contspec = Some cv →
       broadcast_to (Z.to_nat M) cv = Some (inv_a_contspec a)).
Proof.
  split; [|split].
  - intros D q T1 T2 kappa options o w' Hrun.
    destruct (wp_elim _ _ _ _ _ (nsep_wrapper_effects D q T1 T2 kappa options w) Hrun)
      as [Hframe [[Hsame _]|(a0 & Hcall & Hcopy)]]; (split; [done|]);
      intros new a qv Hnew Hin Hqv.
    + rewrite (calls_since_none _ _ _ Hsame Hnew) in Hin. by apply elem_of_nil in Hin.
    + rewrite (calls_since_inj _ _ _ _ Hnew Hcall) in Hin.
      apply list_elem_of_singleton in Hin as [= ->]. by apply Hcopy.
  - intros D q T1 T2 Xi1 Xi2 M K kappa options o w' Hrun.
    destruct (wp_elim _ _ _ _ _
                (nsev_slow_wrapper_effects D q T1 T2 Xi1 Xi2 M K kappa options w) Hrun)
      as [Hframe [[Hsame _]|(a0 & Hcall & _ & _ & _ & Hcopy)]]; (split; [done|]);
      intros new a qv Hnew Hin Hqv.
    + rewrite (calls_since_none _ _ _ Hsame Hnew) in Hin. by apply elem_of_nil in Hin.
    + rewrite (calls_since_inj _ _ _ _ Hnew Hcall) in Hin.
      apply list_elem_of_singleton in Hin as [= ->]. by apply Hcopy.
  - intros M contspec Xi1 Xi2 K bs ds D T1 T2 kappa options o w' Hrun.
    destruct (wp_elim _ _ _ _ _
                (nsev_inverse_wrapper_effects M contspec Xi1 Xi2 K bs ds D T1 T2
                   kappa options w) Hrun)
      as [Hframe [[Hsame _]|(a0 & Hcall & _ & _ & _ & _ & Hcopy)]]; (split; [done|]);
      intros new a cv Hnew Hin Hcv.
    + rewrite (calls_since_none _ _ _ Hsame Hnew) in Hin. by apply elem_of_nil in Hin.
    + rewrite (calls_since_inj _ _ _ _ Hnew Hcall) in Hin.
      apply list_elem_of_singleton in Hin as [= ->]. by apply Hcopy.
Qed.

(** C1, as the code has it.  [nsev_slow_wrapper] does not validate the
    two selectors.  Whenever the samples can be marshalled (the caller's
    array holds [D] samples) and numpy accepts the sizes of the buffers
    the wrapper allocates, the C function is called, with the option
    structure as given; a [discspec_type] other than 0, 1, 2 puts the
    null pointer in place of the bound states and of their coefficients,
    a [contspec_type] other than 0, 1, 2 in place of the continuous
    spectrum; and a dictionary the wrapper returns has no entry
    [disc_norm] or [disc_res] in the first case, no entry [cont_ref],
    [cont_a] or [cont_b] in the second. *)
Theorem nsev_slow_wrapper_unvalidated_selectors `{Env}
    D q T1 T2 Xi1 Xi2 M K kappa options w qv :
  heap w !! q = Some qv →
  length qv = Z.to_nat (ctypes_uint D) →
  nsev_slow_sizes_ok D M K options →
  let r := nsev_slow_wrapper D q T1 T2 Xi1 Xi2 M K kappa options w in
  (∃ a,
     calls_since w r.2 [Call_nsev_slow a] ∧
     slow_a_options a = options ∧
     (¬ disc_requested options →
        slow_a_boundstates a = None ∧ slow_a_discspec a = None) ∧
     (¬ cont_requested options → slow_a_cont a = None)) ∧
  (∀ rd, r.1 = Ret rd →
     (¬ disc_requested options →
        rd !! "disc_norm" = None ∧ rd !! "disc_res" = None) ∧
     (¬ cont_requested options →
        rd !! "cont_ref" = None ∧ rd !! "cont_a" = None ∧
        rd !! "cont_b" = None)).
Proof.
  intros Hq Hlen Hsizes r. split.
  - destruct (nsev_slow_wrapper_effects D q T1 T2 Xi1 Xi2 M K kappa options w)
      as [_ [[_ Hwhy]|(a & Hcall & Hopts & Hdisc & Hcont & _)]].
    + exfalso. destruct (Hwhy qv Hq) as [Hb|Hbad]; [|done].
      rewrite <- Hlen, <- (length_map (λ z, complex_add z zero_j)) in Hb.
      by rewrite broadcast_to_same in Hb.
    + by exists a.
  - intros rd Hret.
    assert (nsev_slow_wrapper D q T1 T2 Xi1 Xi2 M K kappa options w = (Ret rd, r.2))
      as Hrun by (rewrite <- Hret; apply surjective_pairing).
    destruct (nsev_slow_wrapper_returns _ _ _ _ _ _ _ _ _ _ _ _ _ Hrun)
      as (a & _ & _ & _ & _ & _ & _ & _ & _ & _ & _ & _ & _
          & Hnorm & Hres & Href & Hca & Hcb).
    rewrite Hnorm, Hres, Href, Hca, Hcb.
    unfold disc_requested, cont_requested.
    split; intros Hskip; decide_guards; done.
Qed.

(** ** The inverse transform *)

(** The standalone Xi computation always returns: the status and the
    borders the C function left. *)
Lemma nsev_inverse_xi_wrapper_run `{Env} D T1 T2 M dis w :
  nsev_inverse_xi_wrapper D T1 T2 M dis w =
  (Ret (ctypes_int (xi_o_rv (fnft_nsev_inverse_XI (nsev_inverse_xi_args D T1 T2 M dis))),
        xi_o_Xi (fnft_nsev_inverse_XI (nsev_inverse_xi_args D T1 T2 M dis))),
   World (heap w) (calls w ++ [Call_nsev_inverse_XI (nsev_inverse_xi_args D T1 T2 M dis)])).
Proof. reflexivity. Qed.

(** [nsev_inverse] on an existing spectrum and a non-empty time vector:
    the Xi computation, then either the [ValueError] or the wrapper. *)
Lemma nsev_inverse_run `{Env} contspec tvec kappa dis cst csim dst max_iter osf
    w c T1 T2 rv xi w1 :
  heap w !! contspec = Some c → amin tvec = Some T1 → amax tvec = Some T2 →
  nsev_inverse_xi_wrapper (Z.of_nat (length tvec)) T1 T2 (Z.of_nat (length c)) dis w
    = (Ret (rv, xi), w1) →
  nsev_inverse contspec tvec kappa dis cst csim dst max_iter osf w =
  if decide (rv ≠ 0)
  then (Raise (ValueError "nsev_inverse_xi calculation failed"), w1)
  else nsev_inverse_wrapper (Z.of_nat (length c)) contspec xi.1 xi.2 0 None None
         (Z.of_nat (length tvec)) T1 T2 kappa
         (get_nsev_inverse_options dis cst csim dst max_iter osf) w1.
Proof.
  intros Hc Hmin Hmax Hxi.
  unfold nsev_inverse, len, get_array, np_min, np_max.
  unfold mbind, py_mbind, py_bind, mret, py_mret, py_ret.
  rewrite Hc, Hmin, Hmax, Hxi. by destruct (decide (rv ≠ 0)).
Qed.

(** C3.  For [nsev_inverse] on an existing spectrum and a non-empty time
    vector, let [(rv, xi)] be what the standalone Xi computation returns
    for [D = len(tvec)], [T1 = min(tvec)], [T2 = max(tvec)],
    [M = len(contspec)] and the discretization.  If [rv] is not zero,
    [nsev_inverse] raises the [ValueError] and the Xi computation is the
    only foreign call it has made.  If [rv] is zero, [nsev_inverse]
    continues as [nsev_inverse_wrapper] on the two components of [xi],
    and every call of the inverse C function it makes receives exactly
    [xi] as its frequency window. *)
Theorem nsev_inverse_window_from_xi_step `{Env}
    contspec tvec kappa dis cst csim dst max_iter osf w c T1 T2 rv xi w1 :
  heap w !! contspec = Some c → amin tvec = Some T1 → amax tvec = Some T2 →
  nsev_inverse_xi_wrapper (Z.of_nat (length tvec)) T1 T2 (Z.of_nat (length c)) dis w
    = (Ret (rv, xi), w1) →
  (rv ≠ 0 →
     nsev_inverse contspec tvec kappa dis cst csim dst max_iter osf w
       = (Raise (ValueError "nsev_inverse_xi calculation failed"), w1) ∧
     ∃ axi, calls_since w w1 [Call_nsev_inverse_XI axi]) ∧
  (rv = 0 →
     nsev_inverse contspec tvec kappa dis cst csim dst max_iter osf w
       = nsev_inverse_wrapper (Z.of_nat (length c)) contspec xi.1 xi.2 0 None None
           (Z.of_nat (length tvec)) T1 T2 kappa
           (get_nsev_inverse_options dis cst csim dst max_iter osf) w1 ∧
     ∀ o w' new a,
       nsev_inverse contspec tvec kappa dis cst csim dst max_iter osf w = (o, w') →
       calls_since w1 w' new → Call_nsev_inverse a ∈ new → inv_a_Xi a = xi).
Proof.
  intros Hc Hmin Hmax Hxi.
  pose proof (nsev_inverse_run contspec tvec kappa dis cst csim dst max_iter osf
                w c T1 T2 rv xi w1 Hc Hmin Hmax Hxi) as Hrun.
  split; intros Hrv.
  - rewrite decide_True in Hrun by done. split; [done|].
    rewrite nsev_inverse_xi_wrapper_run in Hxi. injection Hxi as _ _ <-.
    by eexists.
  - rewrite decide_False in Hrun by (by intros []). split; [done|].
    intros o w' new a Hfinal Hnew Hin. rewrite Hrun in Hfinal.
    destruct (wp_elim _ _ _ _ _ (nsev_inverse_wrapper_effects _ _ _ _ _ _ _ _ _ _ _ _ w1) Hfinal)
      as [_ [[Hsame _]|(a0 & Hcall & HXi & _)]].
    + rewrite (calls_since_none _ _ _ Hsame Hnew) in Hin. by apply elem_of_nil in Hin.
    + rewrite (calls_since_inj _ _ _ _ Hnew Hcall) in Hin.
      apply list_elem_of_singleton in Hin as [= ->]. rewrite HXi. by destruct xi.
Qed.

(** Every way [nsev_inverse] ends: the calls of the inverse C function
    it has made carry no bound states. *)
Lemma nsev_inverse_effects `{Env} contspec tvec kappa dis cst csim dst max_iter osf w :
  wp (nsev_inverse contspec tvec kappa dis cst csim dst max_iter osf)
     (λ o w',
        ∀ new a, calls_since w w' new → Call_nsev_inverse a ∈ new →
                 inv_a_K a = 0 ∧ inv_a_boundstates a = None ∧
                 inv_a_discspec a = None) w.
Proof.
  cbv beta delta [nsev_inverse nsev_inverse_xi_wrapper call_fnft_nsev_inverse_XI].
  wp_go.
  all: try (intros new a' Hnew Hin;
            first [ rewrite (calls_since_none _ _ new eq_refl Hnew) in Hin;
                    by apply elem_of_nil in Hin
                  | rewrite (calls_since_inj _ _ new [_] Hnew eq_refl) in Hin;
                    by apply list_elem_of_singleton in Hin ]).
  eapply wp_mono; [apply nsev_inverse_wrapper_effects|].
  cbn beta. intros o' w' [_ [[Hsame _]|(a0 & Hcall & _ & HK & Hbs & Hds & _)]] new a' Hnew Hin.
  - unfold calls_since in Hnew. rewrite Hsame in Hnew. cbn [calls] in Hnew.
    apply app_inv_head in Hnew as <-.
    by apply list_elem_of_singleton in Hin.
  - unfold calls_since in Hnew, Hcall. rewrite Hcall in Hnew. cbn [calls] in Hnew.
    rewrite <- app_assoc in Hnew. apply app_inv_head in Hnew as <-.
    apply elem_of_cons in Hin as [[=]|Hin].
    apply list_elem_of_singleton in Hin as [= ->].
    rewrite HK, ctypes_uint_0. split; [done|].
    split; [destruct (inv_a_boundstates a0)|destruct (inv_a_discspec a0)];
      try done; exfalso.
    + assert (0 > 0) by (apply Hbs; eauto). lia.
    + assert (0 > 0) by (apply Hds; eauto). lia.
Qed.

(** C10.  Every call of the inverse C function made through
    [nsev_inverse] announces zero bound states and carries the null
    pointer for the bound states and for their coefficients.
    [nsev_inverse_wrapper] hands over bound-state arrays exactly when its
    argument [K] is positive. *)
Theorem nsev_inverse_passes_no_bound_states `{Env} (w : world) :
  (∀ contspec tvec kappa dis cst csim dst max_iter osf o w' new a,
     nsev_inverse contspec tvec kappa dis cst csim dst max_iter osf w = (o, w') →
     calls_since w w' new → Call_nsev_inverse a ∈ new →
     inv_a_K a = 0 ∧ inv_a_boundstates a = None ∧ inv_a_discspec a = None) ∧
  (∀ M contspec Xi1 Xi2 K bound_states normconst_or_residues D T1 T2 kappa
     options o w' new a,
     nsev_inverse_wrapper M contspec Xi1 Xi2 K bound_states
       normconst_or_residues D T1 T2 kappa options w = (o, w') →
     calls_since w w' new → Call_nsev_inverse a ∈ new →
     inv_a_K a = ctypes_uint K ∧
     (is_Some (inv_a_boundstates a) ↔ K > 0) ∧
     (is_Some (inv_a_discspec a) ↔ K > 0)).
Proof.
  split.
  - intros contspec tvec kappa dis cst csim dst max_iter osf o w' new a Hrun.
    apply (wp_elim _ _ _ _ _ (nsev_inverse_effects _ _ _ _ _ _ _ _ _ w) Hrun).
  - intros M contspec Xi1 Xi2 K bs ds D T1 T2 kappa options o w' new a Hrun Hnew Hin.
    destruct (wp_elim _ _ _ _ _
                (nsev_inverse_wrapper_effects M contspec Xi1 Xi2 K bs ds D T1 T2
                   kappa options w) Hrun)
      as [_ [[Hsame _]|(a0 & Hcall & _ & HK & Hbs & Hds & _)]].
    + rewrite (calls_since_none _ _ _ Hsame Hnew) in Hin. by apply elem_of_nil in Hin.
    + rewrite (calls_since_inj _ _ _ _ Hnew Hcall) in Hin.
      by apply list_elem_of_singleton in Hin as [= ->].
Qed.

(** C9.  Two calls of [nsev_slow] whose time vectors have the same
    minimum and the same maximum are the same computation: same outcome,
    same foreign calls, same final world.  The same holds for
    [nsev_inverse] when the two time vectors also have the same
    length. *)
Theorem tvec_enters_through_its_bounds `{Env} (w : world) :
  (∀ q tvec tvec' Xi1 Xi2 M K kappa bsf bsl niter dst cst dis ref,
     amin tvec = amin tvec' → amax tvec = amax tvec' →
     nsev_slow q tvec Xi1 Xi2 M K kappa bsf bsl niter dst cst dis ref w =
     nsev_slow q tvec' Xi1 Xi2 M K kappa bsf bsl niter dst cst dis ref w) ∧
  (∀ contspec tvec tvec' kappa dis cst csim dst max_iter osf,
     length tvec = length tvec' →
     amin tvec = amin tvec' → amax tvec = amax tvec' →
     nsev_inverse contspec tvec kappa dis cst csim dst max_iter osf w =
     nsev_inverse contspec tvec' kappa dis cst csim dst max_iter osf w).
Proof.
  split.
  - intros q tvec tvec' Xi1 Xi2 M K kappa bsf bsl niter dst cst dis ref Hmin Hmax.
    unfold nsev_slow, np_min, np_max. by rewrite Hmin, Hmax.
  - intros contspec tvec tvec' kappa dis cst csim dst max_iter osf Hlen Hmin Hmax.
    unfold nsev_inverse, np_min, np_max. by rewrite Hlen, Hmin, Hmax.
Qed.

(** ** The return value of the library *)

(** What [nsev_inverse_wrapper] returns. *)
Lemma nsev_inverse_wrapper_returns `{Env}
    M contspec Xi1 Xi2 K bound_states normconst_or_residues D T1 T2 kappa
    options w rd w' :
  nsev_inverse_wrapper M contspec Xi1 Xi2 K bound_states normconst_or_residues
    D T1 T2 kappa options w = (Ret rd, w') →
  ∃ a,
    calls_since w w' [Call_nsev_inverse a] ∧
    check_return_code (ctypes_int (inv_o_rv (fnft_nsev_inverse a))) = None ∧
    rd !! "return_value" = Some (PInt (ctypes_int (inv_o_rv (fnft_nsev_inverse a)))) ∧
    rd !! "q" = Some (PArr (write_back (inv_a_q a) (inv_o_q (fnft_nsev_inverse a)))) ∧
    inv_a_q a = replicate (Z.to_nat (ctypes_uint D)) complex_zero.
Proof.
  revert rd w'. apply wp_returns. unfold_wrappers.
  wp_go; try exact I.
  all: rd_norm; eexists; split; [reflexivity|]; unfold_lets; cbn [inv_a_q]; done.
Qed.

(** [nsev_slow_wrapper] and [nsev_inverse_wrapper] hand the return value
    to [check_return_code]: a dictionary comes back only if that call
    returned. *)
Lemma siblings_check_return_value `{Env} (w : world) :
  (∀ D q T1 T2 Xi1 Xi2 M K kappa options rd w',
     nsev_slow_wrapper D q T1 T2 Xi1 Xi2 M K kappa options w = (Ret rd, w') →
     ∃ rv, rd !! "return_value" = Some (PInt rv) ∧ check_return_code rv = None) ∧
  (∀ M contspec Xi1 Xi2 K bound_states normconst_or_residues D T1 T2 kappa
     options rd w',
     nsev_inverse_wrapper M contspec Xi1 Xi2 K bound_states
       normconst_or_residues D T1 T2 kappa options w = (Ret rd, w') →
     ∃ rv, rd !! "return_value" = Some (PInt rv) ∧ check_return_code rv = None).
Proof.
  split.
  - intros D q T1 T2 Xi1 Xi2 M K kappa options rd w' Hrun.
    destruct (nsev_slow_wrapper_returns _ _ _ _ _ _ _ _ _ _ _ _ _ Hrun)
      as (a & _ & _ & _ & _ & _ & _ & _ & _ & Hcheck & Hrv & _).
    eauto.
  - intros M contspec Xi1 Xi2 K bs ds D T1 T2 kappa options rd w' Hrun.
    destruct (nsev_inverse_wrapper_returns _ _ _ _ _ _ _ _ _ _ _ _ _ _ _ Hrun)
      as (a & _ & Hcheck & Hrv & _).
    eauto.
Qed.

(** [nsep_wrapper] never consults [check_return_code]: replacing it
    changes nothing. *)
Lemma nsep_wrapper_ignores_check_return_code (E : Env) check
    D q T1 T2 kappa options w :
  nsep_wrapper (H := with_check_return_code E check) D q T1 T2 kappa options w =
  nsep_wrapper (H := E) D q T1 T2 kappa options w.
Proof. reflexivity. Qed.

(** A run that returned is its dictionary and its final world. *)
Lemma returns_eq (r : outcome rdict * world) :
  returns r = true → r = (Ret (returned r), r.2).
Proof. unfold returns, returned. by destruct r as [[rd|e] w]. Qed.

(** C2, at a failing input.  The library returns status 1 and
    [check_return_code] raises on it; [nsep_wrapper] nevertheless returns
    a dictionary with the arrays [main] and [aux], the status being just
    another entry. *)
Theorem nsep_wrapper_returns_arrays_on_error :
  @check_return_code (stub_env 1) 1 = Some (Exn "RuntimeError" "FNFT error") ∧
  nsep_run 1 = (Ret (returned (nsep_run 1)), (nsep_run 1).2) ∧
  returned (nsep_run 1) !! "return_value" = Some (PInt 1) ∧
  returned (nsep_run 1) !! "main" = Some (PArr [cplx 1 1; cplx 2 2; cplx 3 3]) ∧
  returned (nsep_run 1) !! "aux" = Some (PArr [cplx 4 4]).
Proof.
  split; [reflexivity|]. split; [by apply returns_eq|].
  repeat split; vm_compute; reflexivity.
Qed.

(** On the same status the sibling wrappers raise what
    [check_return_code] raises. *)
Example siblings_raise_on_error :
  (slow_run 1 0 0).1 = Raise (Exn "RuntimeError" "FNFT error") ∧
  (inverse_wrapper_run 1).1 = Raise (Exn "RuntimeError" "FNFT error").
Proof. split; vm_compute; reflexivity. Qed.

(** ** Concrete runs *)

(** The stand-in C function overwrites the sample buffer it is handed:
    after the call the wrapper's private copy (the first fresh location)
    holds what it wrote, the caller's array what the caller put there. *)
Example nsep_run_writes_the_copy :
  heap (nsep_run 0).2 !! caller_q = Some [cplx 1 0; cplx 2 0] ∧
  heap (nsep_run 0).2 !! 3%positive = Some [cplx 9 9; cplx 9 9].
Proof. split; vm_compute; reflexivity. Qed.

(** C1, refuted as stated.  With [discspec_type = 7] and
    [contspec_type = 9] the call is not rejected: the C function is
    called, with null pointers for both spectra and the two values
    untouched in the option structure, and a dictionary is returned. *)
Lemma nsev_slow_wrapper_accepts_unknown_selectors :
  ¬ rejected_before_computation caller_world (slow_run 0 7 9) ∧
  slow_run 0 7 9 = (Ret (returned (slow_run 0 7 9)), (slow_run 0 7 9).2) ∧
  returned (slow_run 0 7 9) !! "return_value" = Some (PInt 0) ∧
  ∃ a, calls (slow_run 0 7 9).2 = [Call_nsev_slow a] ∧
       discspec_type (slow_a_options a) = 7 ∧
       contspec_type (slow_a_options a) = 9 ∧
       slow_a_boundstates a = None ∧ slow_a_discspec a = None ∧
       slow_a_cont a = None.
Proof.
  split; [|split; [|split]].
  - intros [[e He] _].
    rewrite (returns_eq (slow_run 0 7 9)) in He by (vm_compute; reflexivity).
    discriminate He.
  - apply returns_eq. vm_compute. reflexivity.
  - vm_compute. reflexivity.
  - eexists. split; [vm_compute; reflexivity|]. repeat split.
Qed.

(** The selectors 7 and 9 on the caller's two samples. *)
Lemma nsev_slow_wrapper_unvalidated_selectors_witness :
  heap caller_world !! caller_q = Some [cplx 1 0; cplx 2 0] ∧
  length [cplx 1 0; cplx 2 0] = Z.to_nat (ctypes_uint (H := stub_env 0) 2) ∧
  nsev_slow_sizes_ok (H := stub_env 0) 2 3 4 (slow_options 7 9) ∧
  (∃ a,
     calls_since caller_world (slow_run 0 7 9).2 [Call_nsev_slow a] ∧
     slow_a_options a = slow_options 7 9 ∧
     (¬ disc_requested (slow_options 7 9) →
        slow_a_boundstates a = None ∧ slow_a_discspec a = None) ∧
     (¬ cont_requested (slow_options 7 9) → slow_a_cont a = None)) ∧
  returned (slow_run 0 7 9) !! "disc_norm" = None ∧
  returned (slow_run 0 7 9) !! "disc_res" = None ∧
  returned (slow_run 0 7 9) !! "cont_ref" = None ∧
  returned (slow_run 0 7 9) !! "cont_a" = None ∧
  returned (slow_run 0 7 9) !! "cont_b" = None.
Proof.
  assert (nsev_slow_sizes_ok (H := stub_env 0) 2 3 4 (slow_options 7 9)) as Hsizes
    by (unfold nsev_slow_sizes_ok, np_zeros_ok; repeat split;
        vm_compute; discriminate).
  assert (¬ disc_requested (slow_options 7 9)) as Hnodisc
    by (intros [Hd|[Hd|Hd]]; discriminate Hd).
  assert (¬ cont_requested (slow_options 7 9)) as Hnocont
    by (intros [Hc|[Hc|Hc]]; discriminate Hc).
  assert (slow_run 0 7 9 = (Ret (returned (slow_run 0 7 9)), (slow_run 0 7 9).2))
    as Hrun by (apply returns_eq; vm_compute; reflexivity).
  split; [reflexivity|]. split; [reflexivity|]. split; [exact Hsizes|].
  pose proof (nsev_slow_wrapper_unvalidated_selectors (H := stub_env 0) 2 caller_q
                0%float 1%float (-2)%float 2%float 3 4 1 (slow_options 7 9)
                caller_world [cplx 1 0; cplx 2 0] eq_refl eq_refl Hsizes) as Hall.
  cbv zeta in Hall. destruct Hall as [Hcall Hkeys].
  split; [exact Hcall|].
  destruct (Hkeys (returned (slow_run 0 7 9)) (f_equal fst Hrun))
    as [Hdisc Hcont].
  destruct (Hdisc Hnodisc) as [Hnorm Hres].
  destruct (Hcont Hnocont) as (Href & Hca & Hcb).
  repeat split; assumption.
Defined.

(** A successful Xi computation: the window reaches the inverse call. *)
Lemma nsev_inverse_window_from_xi_step_witness :
  heap caller_world !! caller_contspec = Some [cplx 1 1; cplx 0 1; cplx 1 0] ∧
  amin inverse_tvec = Some 0%float ∧ amax inverse_tvec = Some 1%float ∧
  nsev_inverse_xi_wrapper (H := stub_env 0) 3 0%float 1%float 3 4 caller_world
    = (Ret (0, ((-4)%float, 4%float)),
       World (heap caller_world)
         [Call_nsev_inverse_XI (nsev_inverse_xi_args (H := stub_env 0) 3 0%float 1%float 3 4)]) ∧
  ∃ a, calls (inverse_run 0).2 =
         [Call_nsev_inverse_XI (nsev_inverse_xi_args (H := stub_env 0) 3 0%float 1%float 3 4);
          Call_nsev_inverse a] ∧
       inv_a_Xi a = ((-4)%float, 4%float).
Proof.
  split; [reflexivity|]. split; [reflexivity|]. split; [reflexivity|].
  split; [reflexivity|].
  destruct (nsev_inverse_window_from_xi_step (H := stub_env 0)
              caller_contspec inverse_tvec 1 4 None None None None None
              caller_world [cplx 1 1; cplx 0 1; cplx 1 0] 0%float 1%float
              0 ((-4)%float, 4%float)
              (World (heap caller_world)
                 [Call_nsev_inverse_XI
                    (nsev_inverse_xi_args (H := stub_env 0) 3 0%float 1%float 3 4)])
              eq_refl eq_refl eq_refl eq_refl) as [_ Hok].
  destruct (Hok eq_refl) as [_ Hwindow].
  eexists. split; [vm_compute; reflexivity|].
  eapply (Hwindow _ _ [_]).
  - apply surjective_pairing.
  - vm_compute. reflexivity.
  - apply list_elem_of_singleton. reflexivity.
Defined.

(** Both discrete outputs and the pair [a], [b] requested. *)
Lemma nsev_slow_wrapper_result_keys_witness :
  slow_run 0 2 1 = (Ret (returned (slow_run 0 2 1)), (slow_run 0 2 1).2) ∧
  (is_Some (returned (slow_run 0 2 1) !! "disc_norm") ↔
     discspec_type (slow_options 2 1) = 0 ∨ discspec_type (slow_options 2 1) = 2) ∧
  (is_Some (returned (slow_run 0 2 1) !! "disc_res") ↔
     discspec_type (slow_options 2 1) = 1 ∨ discspec_type (slow_options 2 1) = 2) ∧
  (is_Some (returned (slow_run 0 2 1) !! "cont_ref") ↔
     contspec_type (slow_options 2 1) = 0 ∨ contspec_type (slow_options 2 1) = 2) ∧
  (is_Some (returned (slow_run 0 2 1) !! "cont_a") ↔
     contspec_type (slow_options 2 1) = 1 ∨ contspec_type (slow_options 2 1) = 2) ∧
  (is_Some (returned (slow_run 0 2 1) !! "cont_b") ↔
     contspec_type (slow_options 2 1) = 1 ∨ contspec_type (slow_options 2 1) = 2) ∧
  ∃ a,
    calls_since caller_world (slow_run 0 2 1).2 [Call_nsev_slow a] ∧
    (slow_a_discspec a = None ↔ ¬ disc_requested (slow_options 2 1)) ∧
    (slow_a_boundstates a = None ↔ ¬ disc_requested (slow_options 2 1)) ∧
    (slow_a_cont a = None ↔ ¬ cont_requested (slow_options 2 1)).
Proof.
  assert (slow_run 0 2 1 = (Ret (returned (slow_run 0 2 1)), (slow_run 0 2 1).2))
    as Hrun by (apply returns_eq; vm_compute; reflexivity).
  split; [exact Hrun|].
  exact (nsev_slow_wrapper_result_keys (H := stub_env 0) 2 caller_q
           0%float 1%float (-2)%float 2%float 3 4 1 (slow_options 2 1)
           caller_world _ _ Hrun).
Defined.

(** One bound state found out of at most four, both coefficient kinds
    requested: the residue of bound state 0 sits at index [K_new + 0] of
    the coefficient buffer. *)
Lemma nsev_slow_wrapper_bound_state_arrays_witness :
  slow_run 0 2 1 = (Ret (returned (slow_run 0 2 1)), (slow_run 0 2 1).2) ∧
  ∃ a,
    calls_since caller_world (slow_run 0 2 1).2 [Call_nsev_slow a] ∧
    slow_K_new (H := stub_env 0) a = 1 ∧
    returned (slow_run 0 2 1) !! "bound_states_num" = Some (PInt 1) ∧
    returned (slow_run 0 2 1) !! "bound_states" = Some (PArr [cplx 0 1]) ∧
    returned (slow_run 0 2 1) !! "disc_norm" = Some (PArr [cplx 7 0]) ∧
    returned (slow_run 0 2 1) !! "disc_res" = Some (PArr [cplx 8 0]) ∧
    (∀ v, returned (slow_run 0 2 1) !! "disc_res" = Some v → pyval_len v = 1%nat) ∧
    array_item (returned (slow_run 0 2 1)) "disc_res" 0 =
      slow_discspec_after (H := stub_env 0) a !! 1%nat.
Proof.
  assert (slow_run 0 2 1 = (Ret (returned (slow_run 0 2 1)), (slow_run 0 2 1).2))
    as Hrun by (apply returns_eq; vm_compute; reflexivity).
  split; [exact Hrun|].
  destruct (nsev_slow_wrapper_bound_state_arrays (H := stub_env 0) 2 caller_q
              0%float 1%float (-2)%float 2%float 3 4 1 (slow_options 2 1)
              caller_world _ _ Hrun)
    as (a & Hcall & Hnum & _ & Hlen & Hitem).
  assert (slow_K_new (H := stub_env 0) a = 1) as HK.
  { assert (returned (slow_run 0 2 1) !! "bound_states_num" = Some (PInt 1)) as Hone
      by (vm_compute; reflexivity).
    rewrite Hone in Hnum. by injection Hnum. }
  exists a. split; [exact Hcall|]. split; [exact HK|].
  split; [vm_compute; reflexivity|]. split; [vm_compute; reflexivity|].
  split; [vm_compute; reflexivity|]. split; [vm_compute; reflexivity|].
  rewrite HK in Hlen, Hitem. split.
  - apply Hlen. lia.
  - apply (Hitem 0%nat); [lia | reflexivity].
Defined.

(** Two samples: buffers of 8 and 4 entries, 3 and 1 of them returned. *)
Lemma nsep_wrapper_spectrum_sizes_witness :
  0 ≤ 2 ∧ 4 * 2 < 2 ^ Z.of_nat (@uint_bits (stub_env 0)) ∧
  nsep_run 0 = (Ret (returned (nsep_run 0)), (nsep_run 0).2) ∧
  ∃ a,
    calls_since caller_world (nsep_run 0).2 [Call_nsep a] ∧
    nsep_a_K a = 4 * 2 ∧
    nsep_a_main_spec a = replicate (Z.to_nat (4 * 2)) complex_zero ∧
    nsep_a_M a = 2 * 2 ∧
    nsep_a_aux_spec a = replicate (Z.to_nat (2 * 2)) complex_zero ∧
    returned (nsep_run 0) !! "K" = Some (PInt 3) ∧
    returned (nsep_run 0) !! "main" = Some (PArr [cplx 1 1; cplx 2 2; cplx 3 3]) ∧
    returned (nsep_run 0) !! "M" = Some (PInt 1) ∧
    returned (nsep_run 0) !! "aux" = Some (PArr [cplx 4 4]).
Proof.
  assert (nsep_run 0 = (Ret (returned (nsep_run 0)), (nsep_run 0).2))
    as Hrun by (apply returns_eq; vm_compute; reflexivity).
  assert (4 * 2 < 2 ^ Z.of_nat (@uint_bits (stub_env 0))) as Hsmall
    by (vm_compute; reflexivity).
  split; [lia|]. split; [exact Hsmall|]. split; [exact Hrun|].
  destruct (nsep_wrapper_spectrum_sizes (H := stub_env 0) 2 caller_q
              0%float 1%float 1 nsep_default_options caller_world _ _
              ltac:(lia) Hsmall Hrun)
    as (a & Hcall & HK & Hmain & HM & Haux & _).
  exists a. split; [exact Hcall|]. split; [exact HK|]. split; [exact Hmain|].
  split; [exact HM|]. split; [exact Haux|].
  repeat split; vm_compute; reflexivity.
Defined.

(** The three wrappers run from the caller's world. *)
Lemma wrappers_leave_caller_arrays_unchanged_witness :
  arrays_unchanged caller_world (nsep_run 0).2 ∧
  arrays_unchanged caller_world (slow_run 0 2 1).2 ∧
  arrays_unchanged caller_world (inverse_wrapper_run 0).2.
Proof.
  destruct (wrappers_leave_caller_arrays_unchanged (H := stub_env 0) caller_world)
    as (Hnsep & Hslow & Hinv).
  split; [|split].
  - exact (proj1 (Hnsep 2 caller_q 0%float 1%float 1 nsep_default_options _ _
                    (surjective_pairing (nsep_run 0)))).
  - exact (proj1 (Hslow 2 caller_q 0%float 1%float (-2)%float 2%float 3 4 1
                    (slow_options 2 1) _ _ (surjective_pairing (slow_run 0 2 1)))).
  - exact (proj1 (Hinv 3 caller_contspec (-4)%float 4%float 0 None None 3
                    0%float 1%float 1
                    (stub_nsev_inverse_options 4 None None None None None) _ _
                    (surjective_pairing (inverse_wrapper_run 0)))).
Defined.

(** Two time vectors of different length, order and spacing with the
    same bounds. *)
Lemma tvec_enters_through_its_bounds_witness :
  amin [0; 0.25; 1]%float = amin [1; 0; 0.5; 0.75; 0]%float ∧
  amax [0; 0.25; 1]%float = amax [1; 0; 0.5; 0.75; 0]%float ∧
  nsev_slow (H := stub_env 0) caller_q [0; 0.25; 1]%float (-2)%float 2%float 3 4 1
    None None None None None None None caller_world =
  nsev_slow (H := stub_env 0) caller_q [1; 0; 0.5; 0.75; 0]%float (-2)%float 2%float 3 4 1
    None None None None None None None caller_world.
Proof.
  split; [reflexivity|]. split; [reflexivity|].
  exact (proj1 (tvec_enters_through_its_bounds (H := stub_env 0) caller_world)
           caller_q [0; 0.25; 1]%float [1; 0; 0.5; 0.75; 0]%float
           (-2)%float 2%float 3 4 1 None None None None None None None
           eq_refl eq_refl).
Defined.

(** The inverse call made through [nsev_inverse]. *)
Lemma nsev_inverse_passes_no_bound_states_witness :
  ∃ axi a,
    calls (inverse_run 0).2 = [Call_nsev_inverse_XI axi; Call_nsev_inverse a] ∧
    inv_a_K a = 0 ∧ inv_a_boundstates a = None ∧ inv_a_discspec a = None.
Proof.
  eexists _, _. split; [vm_compute; reflexivity|].
  eapply (proj1 (nsev_inverse_passes_no_bound_states (H := stub_env 0) caller_world)
            caller_contspec inverse_tvec 1 4 None None None None None _ _ [_; _]).
  - apply surjective_pairing.
  - vm_compute. reflexivity.
  - apply elem_of_cons. right. apply list_elem_of_singleton. reflexivity.
Defined.

(** * Further properties of the wrappers *)

(** ** [nsev_slow_wrapper]: marshalling and outcome *)

(** The samples the caller passes fill the wrapper's buffer as they are
    when there are as many of them as the buffer has entries. *)
Lemma broadcast_add_zero_j (n : nat) (qv new : list complex) :
  length qv = n →
  broadcast_to (length (replicate n complex_zero))
    (map (λ z, complex_add z zero_j) qv) = Some new →
  new = add_zero_j qv.
Proof.
  intros Hlen Hb. rewrite length_replicate in Hb.
  rewrite <- Hlen, <- (length_map (λ z, complex_add z zero_j)) in Hb.
  rewrite broadcast_to_same in Hb. by injection Hb as <-.
Qed.

Lemma broadcast_add_zero_j_fails (n : nat) (qv : list complex) :
  length qv = n →
  broadcast_to (length (replicate n complex_zero))
    (map (λ z, complex_add z zero_j) qv) ≠ None.
Proof.
  intros Hlen Hb. rewrite length_replicate in Hb.
  rewrite <- Hlen, <- (length_map (λ z, complex_add z zero_j)) in Hb.
  by rewrite broadcast_to_same in Hb.
Qed.

(** At an exit of the wrapper the selectors are known: of the sizes
    numpy accepts, those of the buffers allocated on the way remain. *)
Ltac use_sizes Hs :=
  let HD := fresh "HD" in
  let H01 := fresh "Hsize" in
  let H2 := fresh "Hsize" in
  let H3 := fresh "Hsize" in
  let H4 := fresh "Hsize" in
  let H5 := fresh "Hsize" in
  unfold nsev_slow_sizes_ok, np_zeros_ok in Hs;
  destruct Hs as (HD & H01 & H2 & H3 & H4 & H5);
  repeat match goal with
         | Himp : ?P → _, HP : ?P |- _ => specialize (Himp HP)
         end;
  repeat match goal with
         | Himp : _ = _ → _ |- _ => clear Himp
         | Himp : _ ∨ _ → _ |- _ => clear Himp
         end.

(** The run of [nsev_slow_wrapper] when the marshalling succeeds. *)
Lemma nsev_slow_wrapper_outcome `{Env} D q T1 T2 Xi1 Xi2 M K kappa options w qv :
  heap w !! q = Some qv →
  length qv = Z.to_nat (ctypes_uint D) →
  nsev_slow_sizes_ok D M K options →
  wp (nsev_slow_wrapper D q T1 T2 Xi1 Xi2 M K kappa options)
     (λ o w',
        calls_since w w'
          [Call_nsev_slow (nsev_slow_args D qv T1 T2 Xi1 Xi2 M K kappa options)] ∧
        match check_return_code
                (ctypes_int (slow_o_rv (fnft_nsev_slow
                   (nsev_slow_args D qv T1 T2 Xi1 Xi2 M K kappa options)))) with
        | Some e => o = Raise e
        | None =>
            if decide (disc_requested options ∨
                       slow_K_new (nsev_slow_args D qv T1 T2 Xi1 Xi2 M K kappa options) = 0)
            then ∃ rd, o = Ret rd
            else o = Raise null_slice_error
        end) w.
Proof.
  intros Hq Hlen Hsizes.
  unfold nsev_slow_args, slow_K_new, zeros.
  unfold disc_requested, cont_requested in *.
  unfold_wrappers.
  wp_go.
  all: use_sizes Hsizes.
  all: try (exfalso; unfold_lets; pose proof (ctypes_uint_nonneg D); lia).
  all: try (exfalso; eapply broadcast_add_zero_j_fails; [exact Hlen | eassumption]).
  all: match goal with
       | Hb : broadcast_to _ _ = Some _ |- _ =>
           apply (broadcast_add_zero_j _ _ _ Hlen) in Hb; subst
       end.
  all: unfold_lets.
  all: cbn [slow_a_options slow_a_boundstates slow_a_discspec slow_a_cont slow_a_q] in *.
  all: repeat first [ rewrite decide_True by lia | rewrite decide_False by lia ].
  all: split; [reflexivity|].
  all: match goal with
       | Hc : check_return_code _ = _ |- _ => rewrite Hc
       end.
  all: try reflexivity.
  all: try match goal with
           | Hle : ctypes_uint ?x ≤ 0 |- _ => pose proof (ctypes_uint_nonneg x)
           end.
  all: repeat first [ rewrite decide_True by lia | rewrite decide_False by lia ].
  all: try by eexists.
Qed.

(** The run of [nsev_slow_wrapper] when the marshalling fails: the
    samples do not fit the buffer of [D] entries, or a requested output
    buffer would have a negative size. *)
Lemma nsev_slow_wrapper_marshalling_fails `{Env}
    D q T1 T2 Xi1 Xi2 M K kappa options w qv :
  heap w !! q = Some qv →
  broadcast_to (Z.to_nat (ctypes_uint D)) (add_zero_j qv) = None ∨
  (disc_requested options ∧ K < 0) ∨
  (cont_requested options ∧ M < 0) →
  wp (nsev_slow_wrapper D q T1 T2 Xi1 Xi2 M K kappa options)
     (λ o w', calls w' = calls w ∧ ∃ msg, o = Raise (ValueError msg)) w.
Proof.
  intros Hq Hfail.
  unfold disc_requested, cont_requested, add_zero_j in *. unfold_wrappers.
  wp_go.
  all: try (split; [reflexivity | by eexists]).
  all: exfalso; unfold_lets.
  all: try (pose proof (ctypes_uint_nonneg D); lia).
  all: match goal with
       | Hb : broadcast_to _ _ = Some _ |- _ => rewrite length_replicate in Hb
       end.
  all: destruct Hfail as [Hf|Hf]; [congruence | lia].
Qed.

(** X1.  When the caller's array holds [D] samples and numpy accepts
    the sizes of the buffers the wrapper allocates, [nsev_slow_wrapper]
    makes exactly one foreign call, and the C function receives: the sizes [D],
    [M] and [K] reduced to the range of [ctypes_uint], the samples plus
    [0.0j], the pairs [(T1, T2)] and [(Xi1, Xi2)], zero-filled output
    buffers of [K] (or [2 * K]) and [M], [2 * M] or [3 * M] entries for
    the requested spectra, the null pointer for the others, and the
    options as given. *)
Theorem nsev_slow_wrapper_engine_call `{Env}
    D q T1 T2 Xi1 Xi2 M K kappa options w qv :
  heap w !! q = Some qv →
  length qv = Z.to_nat (ctypes_uint D) →
  nsev_slow_sizes_ok D M K options →
  calls_since w (nsev_slow_wrapper D q T1 T2 Xi1 Xi2 M K kappa options w).2
    [Call_nsev_slow (nsev_slow_args D qv T1 T2 Xi1 Xi2 M K kappa options)].
Proof.
  intros Hq Hlen Hsizes.
  by destruct (nsev_slow_wrapper_outcome D q T1 T2 Xi1 Xi2 M K kappa options
                 w qv Hq Hlen Hsizes) as [Hcall _].
Qed.


(** X3.  When the caller's samples do not fit a buffer of [D] entries
    (their number is neither [D] nor 1), or a requested spectrum would
    need a buffer of negative size ([K < 0], [M < 0]),
    [nsev_slow_wrapper] raises a [ValueError] and the C function is not
    called. *)
Theorem nsev_slow_wrapper_rejects_bad_sizes `{Env}
    D q T1 T2 Xi1 Xi2 M K kappa options w qv :
  heap w !! q = Some qv →
  broadcast_to (Z.to_nat (ctypes_uint D)) (add_zero_j qv) = None ∨
  (disc_requested options ∧ K < 0) ∨
  (cont_requested options ∧ M < 0) →
  let r := nsev_slow_wrapper D q T1 T2 Xi1 Xi2 M K kappa options w in
  calls r.2 = calls w ∧ ∃ msg, r.1 = Raise (ValueError msg).
Proof.
  intros Hq Hfail.
  apply (nsev_slow_wrapper_marshalling_fails D q T1 T2 Xi1 Xi2 M K kappa
           options w qv Hq Hfail).
Qed.

(** X4.  The continuous spectrum a dictionary of [nsev_slow_wrapper]
    holds is the output buffer cut into blocks of [M] entries, in the
    order reflection coefficient, [a], [b]: for [contspec_type] 0 the
    whole buffer is [cont_ref]; for 1 the buffer is [cont_a] followed by
    [cont_b]; for 2 it is [cont_ref], [cont_a], [cont_b].  Every block
    has exactly [M] entries, whatever the C function did. *)
Theorem nsev_slow_wrapper_continuous_blocks `{Env}
    D q T1 T2 Xi1 Xi2 M K kappa options w rd w' :
  nsev_slow_wrapper D q T1 T2 Xi1 Xi2 M K kappa options w = (Ret rd, w') →
  ∃ a,
    calls_since w w' [Call_nsev_slow a] ∧
    (contspec_type options = 0 →
       rd !! "cont_ref" = Some (PArr (slow_cont_after a)) ∧
       length (slow_cont_after a) = Z.to_nat M) ∧
    (contspec_type options = 1 →
       ∃ xa xb,
         rd !! "cont_a" = Some (PArr xa) ∧ rd !! "cont_b" = Some (PArr xb) ∧
         xa ++ xb = slow_cont_after a ∧
         length xa = Z.to_nat M ∧ length xb = Z.to_nat M) ∧
    (contspec_type options = 2 →
       ∃ xr xa xb,
         rd !! "cont_ref" = Some (PArr xr) ∧
         rd !! "cont_a" = Some (PArr xa) ∧ rd !! "cont_b" = Some (PArr xb) ∧
         xr ++ xa ++ xb = slow_cont_after a ∧
         length xr = Z.to_nat M ∧ length xa = Z.to_nat M ∧
         length xb = Z.to_nat M).
Proof.
  intros Hrun.
  destruct (nsev_slow_wrapper_returns _ _ _ _ _ _ _ _ _ _ _ _ _ Hrun)
    as (a & Hcalls & _ & _ & _ & Hcont & _ & HM & _ & _ & _ & _ & _ & _ & _
        & Href & Hca & Hcb).
  exists a. split; [done|].
  rewrite Href, Hca, Hcb. unfold slow_cont_after. rewrite Hcont.
  unfold cont_requested in HM.
  split; [|split]; intros Hcst; decide_guards; cbn [after];
    assert (0 ≤ M) as HM0 by (apply HM; lia).
  - rewrite length_write_back, length_replicate.
    rewrite py_slice_prefix, take_ge
      by (rewrite ?length_write_back, ?length_replicate; lia).
    done.
  - set (buf := write_back _ _).
    assert (length buf = Z.to_nat (2 * M)) as Hlen
      by (unfold buf; by rewrite length_write_back, length_replicate).
    eexists _, _. split; [done|]. split; [done|].
    rewrite py_slice_prefix, py_slice_second by lia.
    rewrite (take_ge (drop _ _)) by (rewrite length_drop; lia).
    rewrite take_drop, length_take, length_drop. split; [done|]. split; lia.
  - set (buf := write_back _ _).
    assert (length buf = Z.to_nat (3 * M)) as Hlen
      by (unfold buf; by rewrite length_write_back, length_replicate).
    eexists _, _, _. split; [done|]. split; [done|]. split; [done|].
    rewrite py_slice_prefix, py_slice_second, py_slice_range by lia.
    replace (3 * M - 2 * M) with M by lia.
    rewrite (take_ge (drop (Z.to_nat (2 * M)) _)) by (rewrite length_drop; lia).
    replace (Z.to_nat (2 * M)) with (Z.to_nat M + Z.to_nat M)%nat by lia.
    rewrite <- drop_drop, !take_drop, !length_take, !length_drop.
    split; [done|]. repeat split; lia.
Qed.


(** X6.  A caller's array of a single sample is not rejected when [D]
    differs from 1: numpy broadcasts it.  Whenever numpy accepts the
    sizes of the buffers the wrapper allocates, the C function is called
    and receives [D] copies of that sample (plus [0.0j]). *)
Theorem nsev_slow_wrapper_broadcasts_single_sample `{Env}
    D q T1 T2 Xi1 Xi2 M K kappa options w x :
  heap w !! q = Some [x] →
  nsev_slow_sizes_ok D M K options →
  ∃ a,
    calls_since w (nsev_slow_wrapper D q T1 T2 Xi1 Xi2 M K kappa options w).2
      [Call_nsev_slow a] ∧
    slow_a_q a = replicate (Z.to_nat (ctypes_uint D)) (complex_add x zero_j).
Proof.
  intros Hq Hsizes.
  assert (broadcast_to (Z.to_nat (ctypes_uint D))
            (map (λ z, complex_add z zero_j) [x]) =
          Some (replicate (Z.to_nat (ctypes_uint D)) (complex_add x zero_j)))
    as Hb.
  { unfold broadcast_to. cbn [map length]. case_decide as Hn; [|done].
    by rewrite <- Hn. }
  destruct (nsev_slow_wrapper_effects D q T1 T2 Xi1 Xi2 M K kappa options w)
    as [_ [[_ Hwhy]|(a & Hcall & _ & _ & _ & Hcopy)]].
  - exfalso. destruct (Hwhy [x] Hq) as [Hnone|Hbad]; [congruence | done].
  - exists a. split; [done|]. specialize (Hcopy [x] Hq). congruence.
Qed.

(** X7.  The arrays of the discrete spectrum are cut out of buffers of
    [K] entries, so [bound_states] never has more than [K] entries: it
    has [min(K_new, K)] of them, while [bound_states_num] reports the
    count [K_new] the C function left, even when that exceeds [K]. *)
Theorem nsev_slow_wrapper_bound_states_within_buffer `{Env}
    D q T1 T2 Xi1 Xi2 M K kappa options w rd w' :
  nsev_slow_wrapper D q T1 T2 Xi1 Xi2 M K kappa options w = (Ret rd, w') →
  disc_requested options →
  ∃ a xs,
    calls_since w w' [Call_nsev_slow a] ∧
    rd !! "bound_states_num" = Some (PInt (slow_K_new a)) ∧
    rd !! "bound_states" = Some (PArr xs) ∧
    Z.of_nat (length xs) = Z.min (slow_K_new a) K.
Proof.
  intros Hrun Hdisc.
  destruct (nsev_slow_wrapper_returns _ _ _ _ _ _ _ _ _ _ _ _ _ Hrun)
    as (a & Hcall & _ & Hbs & _ & _ & HK & _ & _ & _ & _ & Hnum & Hstates & _).
  rewrite decide_True in Hbs by done. rewrite decide_True in Hstates by done.
  exists a. eexists. split; [done|]. split; [done|]. split; [exact Hstates|].
  unfold slow_boundstates_after. rewrite Hbs. cbn [after].
  rewrite length_take, length_write_back, length_replicate.
  pose proof (ctypes_uint_nonneg (slow_o_K (fnft_nsev_slow a))).
  specialize (HK Hdisc). unfold slow_K_new. lia.
Qed.

(** ** [nsep_wrapper] and [nsep] *)

(** The run of [nsep_wrapper] on an existing array: what is handed to
    the C function and how the call ends. *)
Lemma nsep_wrapper_outcome `{Env} D q T1 T2 kappa options w qv :
  heap w !! q = Some qv →
  wp (nsep_wrapper D q T1 T2 kappa options)
     (λ o w',
        (nsep_sizes_ok D →
         ∀ qb, broadcast_to (Z.to_nat (ctypes_uint D)) (add_zero_j qv) = Some qb →
           ∃ a rd,
             calls_since w w' [Call_nsep a] ∧ nsep_a_q a = qb ∧
             (length qv = Z.to_nat (ctypes_uint D) →
                a = nsep_args D qv T1 T2 kappa options) ∧
             o = Ret rd ∧ keys rd = nsep_keys ∧
             rd !! "return_value" =
               Some (PInt (ctypes_int (nsep_o_rv (fnft_nsep a))))) ∧
        (broadcast_to (Z.to_nat (ctypes_uint D)) (add_zero_j qv) = None ∨
         ¬ nsep_sizes_ok D →
         calls w' = calls w ∧ ∃ msg, o = Raise (ValueError msg))) w.
Proof.
  intros Hq. unfold nsep_args, zeros, keys, nsep_keys, add_zero_j.
  unfold nsep_sizes_ok, np_zeros_ok.
  unfold_wrappers. wp_go.
  all: unfold_lets; rewrite ?length_replicate in *.
  all: split; [intros (HD & HK & HM) qb Hqb | intros Hbad].
  all: try (exfalso; lia).
  all: try (exfalso; congruence).
  all: try (split; [reflexivity | by eexists]).
  - rewrite Hqb in Hb. injection Hb as <-.
    eexists _, _. split; [reflexivity|]. split; [done|].
    split; [|split; [reflexivity|split]].
    + intros Hlen. f_equal.
      rewrite <- Hlen, <- (length_map (λ z, complex_add z zero_j)) in Hqb.
      rewrite broadcast_to_same in Hqb. by injection Hqb as <-.
    + rewrite !dom_insert_L, dom_empty_L. set_solver.
    + by rd_norm.
  - exfalso. destruct Hbad as [Hnone|Hbad]; [congruence|].
    apply Hbad. lia.
Qed.

(** X8.  On an existing array [nsep_wrapper] fails only before the C
    function is called, with a [ValueError]: when the samples do not fit
    a buffer of [D] entries (their number is neither [D] nor 1), or when
    numpy does not accept the size of one of the three buffers.  In
    every other case it calls the C function once and returns a
    dictionary with exactly the entries [return_value], [K], [main],
    [M], [aux] and [options], whatever status the C function returned. *)
Theorem nsep_wrapper_returns_iff_samples_fit `{Env} D q T1 T2 kappa options w qv :
  heap w !! q = Some qv →
  let r := nsep_wrapper D q T1 T2 kappa options w in
  let fit := broadcast_to (Z.to_nat (ctypes_uint D)) (add_zero_j qv) in
  (is_Some fit → nsep_sizes_ok D →
     ∃ a rd, r.1 = Ret rd ∧ keys rd = nsep_keys ∧
             calls_since w r.2 [Call_nsep a] ∧ fit = Some (nsep_a_q a) ∧
             rd !! "return_value" = Some (PInt (ctypes_int (nsep_o_rv (fnft_nsep a))))) ∧
  (fit = None ∨ ¬ nsep_sizes_ok D →
     calls r.2 = calls w ∧ ∃ msg, r.1 = Raise (ValueError msg)).
Proof.
  intros Hq r fit.
  pose proof (nsep_wrapper_outcome D q T1 T2 kappa options w qv Hq) as Hout.
  unfold wp in Hout. fold r fit in Hout. destruct Hout as [Hok Hfail].
  split; [|exact Hfail].
  intros [qb Hqb] Hsizes.
  destruct (Hok Hsizes qb Hqb) as (a & rd & Hcall & Ha & _ & Hret & Hkeys & Hrv).
  exists a, rd. by rewrite Ha.
Qed.

(** X9.  When the caller's array holds [D] samples and numpy accepts
    the sizes of the three buffers, the C function receives through
    [nsep_wrapper]: [D] reduced to the range of [ctypes_uint], the
    samples plus [0.0j], the pair [(T1, T2)], the announced sizes
    [4 * D] and [2 * D] (reduced again) with zero-filled buffers of
    these sizes, [kappa] reduced to [ctypes_int] and the options as
    given. *)
Theorem nsep_wrapper_engine_call `{Env} D q T1 T2 kappa options w qv :
  heap w !! q = Some qv →
  length qv = Z.to_nat (ctypes_uint D) →
  nsep_sizes_ok D →
  calls_since w (nsep_wrapper D q T1 T2 kappa options w).2
    [Call_nsep (nsep_args D qv T1 T2 kappa options)].
Proof.
  intros Hq Hlen Hsizes.
  pose proof (nsep_wrapper_outcome D q T1 T2 kappa options w qv Hq) as Hout.
  unfold wp in Hout. destruct Hout as [Hok _].
  assert (broadcast_to (Z.to_nat (ctypes_uint D)) (add_zero_j qv) =
          Some (add_zero_j qv)) as Hfit.
  { rewrite <- Hlen. unfold add_zero_j.
    rewrite <- (length_map (λ z, complex_add z zero_j)). apply broadcast_to_same. }
  destruct (Hok Hsizes _ Hfit) as (a & rd & Hcall & _ & Ha & _).
  by rewrite <- (Ha Hlen).
Qed.

(** X10.  [nsep] on an array of fewer than [2 ^ uint_bits] samples, for
    which numpy accepts the sizes of the buffers, always returns a
    dictionary: the number of samples it passes is the length of the
    array, so the samples fit, and nothing looks at the status.  The C
    function is called once, with [D = len(q)] and the options built by
    [get_nsep_options]. *)
Theorem nsep_always_returns `{Env} get_nsep_options
    q T1 T2 kappa localization filt bb maxev dis nf w qv :
  heap w !! q = Some qv →
  Z.of_nat (length qv) < 2 ^ Z.of_nat uint_bits →
  nsep_sizes_ok (Z.of_nat (length qv)) →
  let options := get_nsep_options localization filt bb maxev dis nf in
  let a := nsep_args (Z.of_nat (length qv)) qv T1 T2 kappa options in
  let r := nsep get_nsep_options q T1 T2 kappa localization filt bb maxev dis nf w in
  nsep_a_D a = Z.of_nat (length qv) ∧
  calls_since w r.2 [Call_nsep a] ∧
  ∃ rd, r.1 = Ret rd ∧ keys rd = nsep_keys ∧
        rd !! "return_value" = Some (PInt (ctypes_int (nsep_o_rv (fnft_nsep a)))).
Proof.
  intros Hq Hsmall Hsizes options a r.
  assert (ctypes_uint (Z.of_nat (length qv)) = Z.of_nat (length qv)) as Hwrap
    by (apply ctypes_uint_small; lia).
  assert (length qv = Z.to_nat (ctypes_uint (Z.of_nat (length qv)))) as Hlen
    by (rewrite Hwrap; lia).
  split; [exact Hwrap|].
  assert (r = nsep_wrapper (Z.of_nat (length qv)) q T1 T2 kappa options w) as ->.
  { unfold r, nsep, len, get_array.
    unfold mbind, py_mbind, py_bind, mret, py_mret, py_ret. by rewrite Hq. }
  pose proof (nsep_wrapper_outcome (Z.of_nat (length qv)) q T1 T2 kappa options
                w qv Hq) as Hout.
  unfold wp in Hout. destruct Hout as [Hok _].
  assert (broadcast_to (Z.to_nat (ctypes_uint (Z.of_nat (length qv))))
            (add_zero_j qv) = Some (add_zero_j qv)) as Hfit.
  { rewrite <- Hlen. unfold add_zero_j.
    rewrite <- (length_map (λ z, complex_add z zero_j)). apply broadcast_to_same. }
  destruct (Hok Hsizes _ Hfit) as (a' & rd & Hcall & _ & Ha & Hret & Hkeys & Hrv).
  rewrite (Ha Hlen) in Hcall, Hrv. split; [done|]. by exists rd.
Qed.

(** ** [nsev_inverse_wrapper] *)

(** The run of [nsev_inverse_wrapper] without bound states, once the
    spectrum is marshalled. *)
Lemma nsev_inverse_wrapper_outcome `{Env}
    M contspec Xi1 Xi2 K bound_states normconst_or_residues D T1 T2 kappa
    options w cv :
  heap w !! contspec = Some cv →
  length cv = Z.to_nat M → 0 ≤ M ≤ np_max_size → ¬ K > 0 →
  ctypes_uint D ≤ np_max_size →
  wp (nsev_inverse_wrapper M contspec Xi1 Xi2 K bound_states
        normconst_or_residues D T1 T2 kappa options)
     (λ o w',
        let a := nsev_inverse_args M cv Xi1 Xi2 K None None D T1 T2 kappa options in
        calls_since w w' [Call_nsev_inverse a] ∧
        match check_return_code (ctypes_int (inv_o_rv (fnft_nsev_inverse a))) with
        | Some e => o = Raise e
        | None =>
            ∃ rd, o = Ret rd ∧ keys rd = nsev_inverse_keys ∧
                  rd !! "return_value" =
                    Some (PInt (ctypes_int (inv_o_rv (fnft_nsev_inverse a)))) ∧
                  rd !! "q" = Some (PArr (write_back (zeros (ctypes_uint D))
                                            (inv_o_q (fnft_nsev_inverse a))))
        end) w.
Proof.
  intros Hc Hlen HM HK HD. unfold nsev_inverse_args, zeros, keys, nsev_inverse_keys.
  unfold_wrappers. wp_go.
  all: try (exfalso; unfold_lets; pose proof (ctypes_uint_nonneg D); lia).
  all: unfold_lets; rewrite ?length_replicate in *.
  all: try (exfalso; rewrite <- Hlen, broadcast_to_same in *; congruence).
  all: rewrite <- Hlen, broadcast_to_same in Hb; injection Hb as <-.
  all: cbn zeta; split; [reflexivity|].
  all: match goal with Hk : check_return_code _ = _ |- _ => rewrite Hk end.
  all: try reflexivity.
  eexists. split; [reflexivity|]. split.
  - rewrite !dom_insert_L, dom_empty_L. set_solver.
  - split; by rd_norm.
Qed.

(** The run of [nsev_inverse_wrapper] with bound states: both arrays are
    copied into fresh buffers of [K] entries. *)
Lemma nsev_inverse_wrapper_outcome_bound_states `{Env}
    M contspec Xi1 Xi2 K bl dl D T1 T2 kappa options w cv bsv dsv :
  heap w !! contspec = Some cv →
  length cv = Z.to_nat M → 0 ≤ M ≤ np_max_size →
  K > 0 → K ≤ np_max_size → ctypes_uint D ≤ np_max_size →
  heap w !! bl = Some bsv → length bsv = Z.to_nat K →
  heap w !! dl = Some dsv → length dsv = Z.to_nat K →
  wp (nsev_inverse_wrapper M contspec Xi1 Xi2 K (Some bl) (Some dl)
        D T1 T2 kappa options)
     (λ o w',
        let a := nsev_inverse_args M cv Xi1 Xi2 K (Some bsv) (Some dsv)
                   D T1 T2 kappa options in
        calls_since w w' [Call_nsev_inverse a] ∧
        match check_return_code (ctypes_int (inv_o_rv (fnft_nsev_inverse a))) with
        | Some e => o = Raise e
        | None =>
            ∃ rd, o = Ret rd ∧ keys rd = nsev_inverse_keys ∧
                  rd !! "return_value" =
                    Some (PInt (ctypes_int (inv_o_rv (fnft_nsev_inverse a)))) ∧
                  rd !! "q" = Some (PArr (write_back (zeros (ctypes_uint D))
                                            (inv_o_q (fnft_nsev_inverse a))))
        end) w.
Proof.
  intros Hc Hlen HM HK HKmax HD Hbl Hbs Hdl Hds.
  unfold nsev_inverse_args, zeros, keys, nsev_inverse_keys.
  unfold_wrappers. wp_go.
  all: try (exfalso; unfold_lets; pose proof (ctypes_uint_nonneg D); lia).
  all: unfold_lets; rewrite ?length_replicate in *.
  all: try (exfalso;
            match goal with
            | Hn : broadcast_to _ _ = None |- _ =>
                first [ rewrite <- Hlen, broadcast_to_same in Hn
                      | rewrite <- Hbs, broadcast_to_same in Hn
                      | rewrite <- Hds, broadcast_to_same in Hn ];
                discriminate Hn
            end).
  all: rewrite <- Hlen, broadcast_to_same in Hb; injection Hb as <-.
  all: rewrite <- Hbs, broadcast_to_same in Hb0; injection Hb0 as <-.
  all: rewrite <- Hds, broadcast_to_same in Hb1; injection Hb1 as <-.
  all: cbn zeta; split; [reflexivity|].
  all: match goal with Hk : check_return_code _ = _ |- _ => rewrite Hk end.
  all: try reflexivity.
  eexists. split; [reflexivity|]. split.
  - rewrite !dom_insert_L, dom_empty_L. set_solver.
  - split; by rd_norm.
Qed.

(** The run of [nsev_inverse_wrapper] when bound states are announced
    but an array is missing. *)
Lemma nsev_inverse_wrapper_missing_bound_states `{Env}
    M contspec Xi1 Xi2 K bound_states normconst_or_residues D T1 T2 kappa
    options w cv bsv :
  heap w !! contspec = Some cv →
  length cv = Z.to_nat M → 0 ≤ M ≤ np_max_size →
  K > 0 → K ≤ np_max_size →
  bound_states = None ∨
  (∃ bl, bound_states = Some bl ∧ heap w !! bl = Some bsv ∧
         length bsv = Z.to_nat K ∧ normconst_or_residues = None) →
  wp (nsev_inverse_wrapper M contspec Xi1 Xi2 K bound_states
        normconst_or_residues D T1 T2 kappa options)
     (λ o w',
        calls w' = calls w ∧
        o = Raise (TypeError "'NoneType' object is not subscriptable")) w.
Proof.
  intros Hc Hlen HM HK HKmax [->|(bl & -> & Hbl & Hbs & ->)].
  all: unfold_wrappers; wp_go.
  all: try done.
  all: exfalso; unfold_lets; rewrite ?length_replicate in *.
  all: try lia.
  all: match goal with
       | Hn : broadcast_to _ _ = None |- _ =>
           first [ rewrite <- Hlen, broadcast_to_same in Hn
                 | rewrite <- Hbs, broadcast_to_same in Hn ];
           discriminate Hn
       end.
Qed.

(** X11.  [nsev_inverse_wrapper] without bound states ([K] not
    positive), on a spectrum of [M] entries, with sizes [M] and [D]
    (reduced to [ctypes_uint]) that numpy accepts: the C function is called
    once and receives a copy of the spectrum, the window [(Xi1, Xi2)],
    null pointers for the bound states and their coefficients, a
    zero-filled buffer of [D] entries (reduced to [ctypes_uint]) for the
    samples, and the options as given.  An exception of
    [check_return_code] passes through; otherwise the dictionary has
    exactly the entries [return_value], [q] and [options], and [q] is the
    sample buffer as the C function left it. *)
Theorem nsev_inverse_wrapper_without_bound_states `{Env}
    M contspec Xi1 Xi2 K bound_states normconst_or_residues D T1 T2 kappa
    options w cv :
  heap w !! contspec = Some cv →
  length cv = Z.to_nat M → 0 ≤ M ≤ np_max_size → K ≤ 0 →
  ctypes_uint D ≤ np_max_size →
  let a := nsev_inverse_args M cv Xi1 Xi2 K None None D T1 T2 kappa options in
  let rv := ctypes_int (inv_o_rv (fnft_nsev_inverse a)) in
  let r := nsev_inverse_wrapper M contspec Xi1 Xi2 K bound_states
             normconst_or_residues D T1 T2 kappa options w in
  calls_since w r.2 [Call_nsev_inverse a] ∧
  (∀ e, check_return_code rv = Some e → r.1 = Raise e) ∧
  (check_return_code rv = None →
     ∃ rd, r.1 = Ret rd ∧ keys rd = nsev_inverse_keys ∧
           rd !! "return_value" = Some (PInt rv) ∧
           rd !! "q" = Some (PArr (write_back (zeros (ctypes_uint D))
                                     (inv_o_q (fnft_nsev_inverse a))))).
Proof.
  intros Hc Hlen HM HK HD a rv r.
  assert (¬ K > 0) as HK' by lia.
  pose proof (nsev_inverse_wrapper_outcome M contspec Xi1 Xi2 K bound_states
                normconst_or_residues D T1 T2 kappa options w cv Hc Hlen HM HK' HD)
    as Hout.
  unfold wp in Hout. cbn zeta in Hout. fold a rv r in Hout.
  destruct Hout as [Hcall Hout]. split; [done|].
  destruct (check_return_code rv) as [e|].
  - split; [|done]. by intros e' [= <-].
  - split; [done|]. intros _. destruct Hout as (rd & Hret & Hkeys & Hrv & Hq).
    by exists rd.
Qed.

(** X12.  A negative [K] is not rejected by [nsev_inverse_wrapper]
    (on a spectrum of [M] entries, with sizes [M] and [D] that numpy
    accepts): the
    test [K > 0] fails, so the C function receives null pointers, while
    the count it is told is [K] reduced to the range of [ctypes_uint],
    that is [2 ^ uint_bits + K] for [- 2 ^ uint_bits ≤ K < 0]. *)
Theorem nsev_inverse_wrapper_negative_count `{Env}
    M contspec Xi1 Xi2 K bound_states normconst_or_residues D T1 T2 kappa
    options w cv :
  heap w !! contspec = Some cv →
  length cv = Z.to_nat M → 0 ≤ M ≤ np_max_size →
  - 2 ^ Z.of_nat uint_bits ≤ K < 0 →
  ctypes_uint D ≤ np_max_size →
  ∃ a,
    calls_since w
      (nsev_inverse_wrapper M contspec Xi1 Xi2 K bound_states
         normconst_or_residues D T1 T2 kappa options w).2
      [Call_nsev_inverse a] ∧
    inv_a_K a = 2 ^ Z.of_nat uint_bits + K ∧
    inv_a_boundstates a = None ∧ inv_a_discspec a = None.
Proof.
  intros Hc Hlen HM HK HD.
  assert (¬ K > 0) as HK' by lia.
  pose proof (nsev_inverse_wrapper_outcome M contspec Xi1 Xi2 K bound_states
                normconst_or_residues D T1 T2 kappa options w cv Hc Hlen HM HK' HD)
    as Hout.
  unfold wp in Hout. cbn zeta in Hout. destruct Hout as [Hcall _].
  eexists. split; [exact Hcall|]. cbn [nsev_inverse_args inv_a_K inv_a_boundstates
                                        inv_a_discspec].
  split; [|done]. unfold ctypes_uint.
  symmetry. apply (Z.mod_unique_pos _ _ (-1)); lia.
Qed.

(** X13.  [nsev_inverse_wrapper] with bound states ([K > 0]) and two
    arrays of [K] entries, with sizes [M], [K] and [D] that numpy
    accepts: the C function receives copies of the bound
    states and of their coefficients, entry for entry, next to the copy
    of the spectrum; the outcome is decided by [check_return_code] as
    without bound states. *)
Theorem nsev_inverse_wrapper_with_bound_states `{Env}
    M contspec Xi1 Xi2 K bl dl D T1 T2 kappa options w cv bsv dsv :
  heap w !! contspec = Some cv →
  length cv = Z.to_nat M → 0 ≤ M ≤ np_max_size →
  K > 0 → K ≤ np_max_size → ctypes_uint D ≤ np_max_size →
  heap w !! bl = Some bsv → length bsv = Z.to_nat K →
  heap w !! dl = Some dsv → length dsv = Z.to_nat K →
  let a := nsev_inverse_args M cv Xi1 Xi2 K (Some bsv) (Some dsv)
             D T1 T2 kappa options in
  let rv := ctypes_int (inv_o_rv (fnft_nsev_inverse a)) in
  let r := nsev_inverse_wrapper M contspec Xi1 Xi2 K (Some bl) (Some dl)
             D T1 T2 kappa options w in
  calls_since w r.2 [Call_nsev_inverse a] ∧
  (∀ e, check_return_code rv = Some e → r.1 = Raise e) ∧
  (check_return_code rv = None →
     ∃ rd, r.1 = Ret rd ∧ keys rd = nsev_inverse_keys ∧
           rd !! "return_value" = Some (PInt rv) ∧
           rd !! "q" = Some (PArr (write_back (zeros (ctypes_uint D))
                                     (inv_o_q (fnft_nsev_inverse a))))).
Proof.
  intros Hc Hlen HM HK HKmax HD Hbl Hbs Hdl Hds a rv r.
  pose proof (nsev_inverse_wrapper_outcome_bound_states M contspec Xi1 Xi2 K bl dl
                D T1 T2 kappa options w cv bsv dsv Hc Hlen HM HK HKmax HD Hbl Hbs Hdl Hds)
    as Hout.
  unfold wp in Hout. cbn zeta in Hout. fold a rv r in Hout.
  destruct Hout as [Hcall Hout]. split; [done|].
  destruct (check_return_code rv) as [e|].
  - split; [|done]. by intros e' [= <-].
  - split; [done|]. intros _. destruct Hout as (rd & Hret & Hkeys & Hrv & Hq).
    by exists rd.
Qed.

(** X14.  Announcing bound states ([K > 0], a size numpy accepts)
    without handing over both
    arrays makes [nsev_inverse_wrapper] raise the [TypeError] of
    subscripting [None], and the C function is not called: when
    [bound_states] is [None], or when it is an array of [K] entries and
    [normconst_or_residues] is [None]. *)
Theorem nsev_inverse_wrapper_missing_arrays `{Env}
    M contspec Xi1 Xi2 K bound_states normconst_or_residues D T1 T2 kappa
    options w cv bsv :
  heap w !! contspec = Some cv →
  length cv = Z.to_nat M → 0 ≤ M ≤ np_max_size →
  K > 0 → K ≤ np_max_size →
  bound_states = None ∨
  (∃ bl, bound_states = Some bl ∧ heap w !! bl = Some bsv ∧
         length bsv = Z.to_nat K ∧ normconst_or_residues = None) →
  let r := nsev_inverse_wrapper M contspec Xi1 Xi2 K bound_states
             normconst_or_residues D T1 T2 kappa options w in
  calls r.2 = calls w ∧
  r.1 = Raise (TypeError "'NoneType' object is not subscriptable").
Proof.
  intros Hc Hlen HM HK HKmax Hmiss.
  apply (nsev_inverse_wrapper_missing_bound_states M contspec Xi1 Xi2 K
           bound_states normconst_or_residues D T1 T2 kappa options w cv bsv
           Hc Hlen HM HK HKmax Hmiss).
Qed.

(** What [nsev_inverse_wrapper] returns, with the entries of the
    dictionary. *)
Lemma nsev_inverse_wrapper_returns_keys `{Env}
    M contspec Xi1 Xi2 K bound_states normconst_or_residues D T1 T2 kappa
    options w rd w' :
  nsev_inverse_wrapper M contspec Xi1 Xi2 K bound_states normconst_or_residues
    D T1 T2 kappa options w = (Ret rd, w') →
  keys rd = nsev_inverse_keys.
Proof.
  revert rd w'. apply wp_returns. unfold keys, nsev_inverse_keys. unfold_wrappers.
  wp_go; try exact I.
  all: rewrite !dom_insert_L, dom_empty_L; set_solver.
Qed.

(** X15.  Every dictionary [nsev_inverse_wrapper] returns has exactly
    the entries [return_value], [q] and [options], and its [q] has
    exactly [D] samples ([D] reduced to the range of [ctypes_uint]),
    whatever the C function wrote. *)
Theorem nsev_inverse_wrapper_result_shape `{Env}
    M contspec Xi1 Xi2 K bound_states normconst_or_residues D T1 T2 kappa
    options w rd w' :
  nsev_inverse_wrapper M contspec Xi1 Xi2 K bound_states normconst_or_residues
    D T1 T2 kappa options w = (Ret rd, w') →
  keys rd = nsev_inverse_keys ∧
  ∃ qv, rd !! "q" = Some (PArr qv) ∧ length qv = Z.to_nat (ctypes_uint D).
Proof.
  intros Hrun. split.
  - by eapply nsev_inverse_wrapper_returns_keys.
  - destruct (nsev_inverse_wrapper_returns _ _ _ _ _ _ _ _ _ _ _ _ _ _ _ Hrun)
      as (a & _ & _ & _ & Hq & Hbuf).
    eexists. split; [exact Hq|].
    by rewrite length_write_back, Hbuf, length_replicate.
Qed.

(** X16.  [nsev_inverse_wrapper] allocates the copy of the spectrum
    with [M] itself: a negative [M], or a spectrum whose number of
    entries is neither [M] nor 1, raises a [ValueError] and the C
    function is not called. *)
Theorem nsev_inverse_wrapper_rejects_bad_spectrum `{Env}
    M contspec Xi1 Xi2 K bound_states normconst_or_residues D T1 T2 kappa
    options w cv :
  heap w !! contspec = Some cv →
  M < 0 ∨ broadcast_to (Z.to_nat M) cv = None →
  let r := nsev_inverse_wrapper M contspec Xi1 Xi2 K bound_states
             normconst_or_residues D T1 T2 kappa options w in
  calls r.2 = calls w ∧ ∃ msg, r.1 = Raise (ValueError msg).
Proof.
  intros Hc Hbad. change (wp (nsev_inverse_wrapper M contspec Xi1 Xi2 K bound_states
             normconst_or_residues D T1 T2 kappa options)
     (λ o w', calls w' = calls w ∧ ∃ msg, o = Raise (ValueError msg)) w).
  unfold_wrappers. wp_go.
  all: try (split; [reflexivity | by eexists]).
  all: exfalso; unfold_lets; rewrite ?length_replicate in *.
  all: destruct Hbad as [?|Hn]; [lia | congruence].
Qed.

(** ** The convenience functions *)

(** [nsev_slow] on an existing array and a non-empty time vector is
    [nsev_slow_wrapper] on the length of the array and the bounds of the
    time vector. *)
Lemma nsev_slow_run `{Env} q tvec Xi1 Xi2 M K kappa bsf bsl niter dst cst dis ref
    w qv T1 T2 :
  heap w !! q = Some qv → amin tvec = Some T1 → amax tvec = Some T2 →
  nsev_slow q tvec Xi1 Xi2 M K kappa bsf bsl niter dst cst dis ref w =
  nsev_slow_wrapper (Z.of_nat (length qv)) q T1 T2 Xi1 Xi2 M K kappa
    (get_nsev_slow_options bsf bsl niter dst cst dis ref) w.
Proof.
  intros Hq Hmin Hmax.
  unfold nsev_slow, len, get_array, np_min, np_max.
  unfold mbind, py_mbind, py_bind, mret, py_mret, py_ret.
  by rewrite Hq, Hmin, Hmax.
Qed.

(** X17.  [nsev_slow] cannot fail on the number of samples: for an
    array of fewer than [2 ^ uint_bits] samples and a non-empty time
    vector, when numpy accepts the sizes of the buffers, the C
    function is called once, with [D = len(q)], the samples plus [0.0j],
    [T = (min(tvec), max(tvec))] and the options built by
    [get_nsev_slow_options]. *)
Theorem nsev_slow_engine_call `{Env}
    q tvec Xi1 Xi2 M K kappa bsf bsl niter dst cst dis ref w qv T1 T2 :
  heap w !! q = Some qv → amin tvec = Some T1 → amax tvec = Some T2 →
  Z.of_nat (length qv) < 2 ^ Z.of_nat uint_bits →
  let options := get_nsev_slow_options bsf bsl niter dst cst dis ref in
  nsev_slow_sizes_ok (Z.of_nat (length qv)) M K options →
  let a := nsev_slow_args (Z.of_nat (length qv)) qv T1 T2 Xi1 Xi2 M K kappa options in
  slow_a_D a = Z.of_nat (length qv) ∧
  calls_since w
    (nsev_slow q tvec Xi1 Xi2 M K kappa bsf bsl niter dst cst dis ref w).2
    [Call_nsev_slow a].
Proof.
  intros Hq Hmin Hmax Hsmall options Hsizes a.
  assert (ctypes_uint (Z.of_nat (length qv)) = Z.of_nat (length qv)) as Hwrap
    by (apply ctypes_uint_small; lia).
  split; [exact Hwrap|].
  rewrite (nsev_slow_run _ _ _ _ _ _ _ _ _ _ _ _ _ _ w qv T1 T2 Hq Hmin Hmax).
  assert (length qv = Z.to_nat (ctypes_uint (Z.of_nat (length qv)))) as Hlen
    by (rewrite Hwrap; lia).
  by destruct (nsev_slow_wrapper_outcome (Z.of_nat (length qv)) q T1 T2 Xi1 Xi2
                 M K kappa options w qv Hq Hlen Hsizes) as [Hcall _].
Qed.

(** X18.  An empty time vector stops both convenience functions at
    [np.min]: on an existing array they raise the [ValueError] of a
    reduction over a zero-size array, and leave the world as it was, so
    no C function has been called. *)
Theorem empty_tvec_is_rejected `{Env} (w : world) l xs :
  heap w !! l = Some xs →
  (∀ Xi1 Xi2 M K kappa bsf bsl niter dst cst dis ref,
     nsev_slow l [] Xi1 Xi2 M K kappa bsf bsl niter dst cst dis ref w =
     (Raise (ValueError
        "zero-size array to reduction operation minimum which has no identity"), w)) ∧
  (∀ kappa dis cst csim dst max_iter osf,
     nsev_inverse l [] kappa dis cst csim dst max_iter osf w =
     (Raise (ValueError
        "zero-size array to reduction operation minimum which has no identity"), w)).
Proof.
  intros Hl. split; intros.
  - unfold nsev_slow, len, get_array, np_min.
    unfold mbind, py_mbind, py_bind, mret, py_mret, py_ret. by rewrite Hl.
  - unfold nsev_inverse, len, get_array, np_min.
    unfold mbind, py_mbind, py_bind, mret, py_mret, py_ret. by rewrite Hl.
Qed.

(** X19.  [nsev_inverse] on an existing spectrum and a non-empty time
    vector, of sizes numpy accepts for the copy of the spectrum and for
    the samples, when the Xi computation returns status 0: exactly two C
    functions are called, the Xi computation and the inverse transform,
    both with [D = len(tvec)], [M = len(contspec)] and
    [T = (min(tvec), max(tvec))]; the inverse transform receives a copy
    of the spectrum, the window of the Xi computation and no bound
    states.  Marshalling cannot fail: an exception of
    [check_return_code] passes through, otherwise the dictionary with
    [return_value], [q] and [options] comes back. *)
Theorem nsev_inverse_two_calls `{Env}
    contspec tvec kappa dis cst csim dst max_iter osf w c T1 T2 :
  heap w !! contspec = Some c → amin tvec = Some T1 → amax tvec = Some T2 →
  let D := Z.of_nat (length tvec) in
  let M := Z.of_nat (length c) in
  let axi := nsev_inverse_xi_args D T1 T2 M dis in
  let xi := xi_o_Xi (fnft_nsev_inverse_XI axi) in
  let options := get_nsev_inverse_options dis cst csim dst max_iter osf in
  let a := nsev_inverse_args M c xi.1 xi.2 0 None None D T1 T2 kappa options in
  let rv := ctypes_int (inv_o_rv (fnft_nsev_inverse a)) in
  let r := nsev_inverse contspec tvec kappa dis cst csim dst max_iter osf w in
  M ≤ np_max_size → ctypes_uint D ≤ np_max_size →
  ctypes_int (xi_o_rv (fnft_nsev_inverse_XI axi)) = 0 →
  calls_since w r.2 [Call_nsev_inverse_XI axi; Call_nsev_inverse a] ∧
  (∀ e, check_return_code rv = Some e → r.1 = Raise e) ∧
  (check_return_code rv = None →
     ∃ rd, r.1 = Ret rd ∧ keys rd = nsev_inverse_keys ∧
           rd !! "return_value" = Some (PInt rv) ∧
           rd !! "q" = Some (PArr (write_back (zeros (ctypes_uint D))
                                     (inv_o_q (fnft_nsev_inverse a))))).
Proof.
  intros Hc Hmin Hmax D M axi xi options a rv r HMmax HD Hxi.
  pose proof (nsev_inverse_run contspec tvec kappa dis cst csim dst max_iter osf
                w c T1 T2 _ _ _ Hc Hmin Hmax
                (nsev_inverse_xi_wrapper_run D T1 T2 M dis w)) as Hrun.
  fold D M axi xi options in Hrun. rewrite Hxi in Hrun.
  rewrite decide_False in Hrun by (by intros []).
  set (w1 := World (heap w) (calls w ++ [Call_nsev_inverse_XI axi])) in Hrun.
  assert (heap w1 !! contspec = Some c) as Hc1 by done.
  assert (length c = Z.to_nat M) as Hlen by (unfold M; lia).
  assert (0 ≤ M ≤ np_max_size) as HM by (unfold M in *; lia).
  assert (¬ 0 > 0) as HK by lia.
  pose proof (nsev_inverse_wrapper_outcome M contspec xi.1 xi.2 0 None None
                D T1 T2 kappa options w1 c Hc1 Hlen HM HK HD) as Hout.
  unfold wp in Hout. cbn zeta in Hout. fold a rv in Hout.
  fold r in Hrun. rewrite <- Hrun in Hout.
  destruct Hout as [Hcall Hout]. split.
  { unfold calls_since in *. rewrite Hcall. cbn [calls w1]. by rewrite <- app_assoc. }
  destruct (check_return_code rv) as [e|].
  - split; [|done]. by intros e' [= <-].
  - split; [done|]. intros _. destruct Hout as (rd & Hret & Hkeys & Hrv & Hq).
    by exists rd.
Qed.

(** X20.  The field a dictionary of [nsev_inverse] holds under [q] has
    one sample per entry of the time vector (for a time vector of fewer
    than [2 ^ uint_bits] entries). *)
Theorem nsev_inverse_one_sample_per_time `{Env}
    contspec tvec kappa dis cst csim dst max_iter osf w rd w' :
  nsev_inverse contspec tvec kappa dis cst csim dst max_iter osf w = (Ret rd, w') →
  Z.of_nat (length tvec) < 2 ^ Z.of_nat uint_bits →
  ∃ qv, rd !! "q" = Some (PArr qv) ∧ length qv = length tvec.
Proof.
  intros Hrun Hsmall.
  destruct (heap w !! contspec) as [c|] eqn:Hc; cycle 1.
  { unfold nsev_inverse, len, get_array in Hrun.
    unfold mbind, py_mbind, py_bind, mret, py_mret, py_ret in Hrun.
    by rewrite Hc in Hrun. }
  destruct (amin tvec) as [T1|] eqn:Hmin; cycle 1.
  { unfold nsev_inverse, len, get_array, np_min in Hrun.
    unfold mbind, py_mbind, py_bind, mret, py_mret, py_ret in Hrun.
    by rewrite Hc, Hmin in Hrun. }
  destruct (amax tvec) as [T2|] eqn:Hmax; cycle 1.
  { unfold nsev_inverse, len, get_array, np_min, np_max in Hrun.
    unfold mbind, py_mbind, py_bind, mret, py_mret, py_ret in Hrun.
    by rewrite Hc, Hmin, Hmax in Hrun. }
  rewrite (nsev_inverse_run contspec tvec kappa dis cst csim dst max_iter osf
             w c T1 T2 _ _ _ Hc Hmin Hmax
             (nsev_inverse_xi_wrapper_run _ T1 T2 _ dis w)) in Hrun.
  case_decide; [done|].
  destruct (nsev_inverse_wrapper_returns _ _ _ _ _ _ _ _ _ _ _ _ _ _ _ Hrun)
    as (a & _ & _ & _ & Hq & Hbuf).
  eexists. split; [exact Hq|].
  rewrite length_write_back, Hbuf, length_replicate, ctypes_uint_small by lia. lia.
Qed.

(** X21.  The convenience functions [nsev_slow], [nsev_inverse] and
    [nsep] leave every array that existed before the call with its
    contents, however the call ends: what the C functions overwrite are
    the buffers allocated by the wrappers. *)
Theorem convenience_functions_leave_arrays_unchanged `{Env} (w : world) :
  (∀ q tvec Xi1 Xi2 M K kappa bsf bsl niter dst cst dis ref,
     arrays_unchanged w
       (nsev_slow q tvec Xi1 Xi2 M K kappa bsf bsl niter dst cst dis ref w).2) ∧
  (∀ contspec tvec kappa dis cst csim dst max_iter osf,
     arrays_unchanged w
       (nsev_inverse contspec tvec kappa dis cst csim dst max_iter osf w).2) ∧
  (∀ get_nsep_options q T1 T2 kappa localization filt bb maxev dis nf,
     arrays_unchanged w
       (nsep get_nsep_options q T1 T2 kappa localization filt bb maxev dis nf w).2).
Proof.
  split; [|split].
  - intros q tvec Xi1 Xi2 M K kappa bsf bsl niter dst cst dis ref.
    change (wp (nsev_slow q tvec Xi1 Xi2 M K kappa bsf bsl niter dst cst dis ref)
              (λ _ w', arrays_unchanged w w') w).
    cbv beta delta [nsev_slow]. wp_go.
    all: try (by intros l [x Hl]).
    eapply wp_mono; [apply nsev_slow_wrapper_effects|].
    cbn beta. by intros o' w' [Hframe _].
  - intros contspec tvec kappa dis cst csim dst max_iter osf.
    change (wp (nsev_inverse contspec tvec kappa dis cst csim dst max_iter osf)
              (λ _ w', arrays_unchanged w w') w).
    cbv beta delta [nsev_inverse nsev_inverse_xi_wrapper call_fnft_nsev_inverse_XI].
    wp_go.
    all: try (by intros l [x Hl]).
    eapply wp_mono; [apply nsev_inverse_wrapper_effects|].
    cbn beta. by intros o' w' [Hframe _].
  - intros get_nsep_options q T1 T2 kappa localization filt bb maxev dis nf.
    change (wp (nsep get_nsep_options q T1 T2 kappa localization filt bb maxev dis nf)
              (λ _ w', arrays_unchanged w w') w).
    cbv beta delta [nsep]. wp_go.
    all: try (by intros l [x Hl]).
    eapply wp_mono; [apply nsep_wrapper_effects|].
    cbn beta. by intros o' w' [Hframe _].
Qed.

(** ** Runs of the further properties against the stand-in library *)

(** The sizes of a run against the stand-in library are far below its
    limit. *)
Ltac stub_sizes :=
  unfold nsev_slow_sizes_ok, nsep_sizes_ok, np_zeros_ok;
  repeat split; vm_compute; discriminate.

(** Both discrete outputs and the pair [a], [b] on the caller's two
    samples. *)
Lemma nsev_slow_wrapper_engine_call_witness :
  heap caller_world !! caller_q = Some [cplx 1 0; cplx 2 0] ∧
  length [cplx 1 0; cplx 2 0] = Z.to_nat (ctypes_uint (H := stub_env 0) 2) ∧
  nsev_slow_sizes_ok (H := stub_env 0) 2 3 4 (slow_options 2 1) ∧
  calls_since caller_world (slow_run 0 2 1).2
    [Call_nsev_slow
       (nsev_slow_args (H := stub_env 0) 2 [cplx 1 0; cplx 2 0] 0%float 1%float
          (-2)%float 2%float 3 4 1 (slow_options 2 1))].
Proof.
  assert (nsev_slow_sizes_ok (H := stub_env 0) 2 3 4 (slow_options 2 1)) as Hsizes
    by stub_sizes.
  split; [reflexivity|]. split; [reflexivity|]. split; [exact Hsizes|].
  exact (nsev_slow_wrapper_engine_call (H := stub_env 0) 2 caller_q
           0%float 1%float (-2)%float 2%float 3 4 1 (slow_options 2 1)
           caller_world [cplx 1 0; cplx 2 0] eq_refl eq_refl Hsizes).
Defined.


(** Three samples announced for the caller's two. *)
Lemma nsev_slow_wrapper_rejects_bad_sizes_witness :
  broadcast_to (Z.to_nat (ctypes_uint (H := stub_env 0) 3))
    (add_zero_j [cplx 1 0; cplx 2 0]) = None ∧
  calls (nsev_slow_wrapper (H := stub_env 0) 3 caller_q 0%float 1%float
           (-2)%float 2%float 3 4 1 (slow_options 0 0) caller_world).2 = [] ∧
  ∃ msg, (nsev_slow_wrapper (H := stub_env 0) 3 caller_q 0%float 1%float
            (-2)%float 2%float 3 4 1 (slow_options 0 0) caller_world).1
         = Raise (ValueError msg).
Proof.
  assert (broadcast_to (Z.to_nat (ctypes_uint (H := stub_env 0) 3))
            (add_zero_j [cplx 1 0; cplx 2 0]) = None) as Hnone
    by (vm_compute; reflexivity).
  split; [exact Hnone|].
  exact (nsev_slow_wrapper_rejects_bad_sizes (H := stub_env 0) 3 caller_q
           0%float 1%float (-2)%float 2%float 3 4 1 (slow_options 0 0)
           caller_world [cplx 1 0; cplx 2 0] eq_refl (or_introl Hnone)).
Defined.

(** All three kinds of continuous spectrum for [M = 3]: a buffer of nine
    entries in three blocks. *)
Lemma nsev_slow_wrapper_continuous_blocks_witness :
  slow_run 0 0 2 = (Ret (returned (slow_run 0 0 2)), (slow_run 0 0 2).2) ∧
  ∃ a xr xa xb,
    calls_since caller_world (slow_run 0 0 2).2 [Call_nsev_slow a] ∧
    returned (slow_run 0 0 2) !! "cont_ref" = Some (PArr xr) ∧
    returned (slow_run 0 0 2) !! "cont_a" = Some (PArr xa) ∧
    returned (slow_run 0 0 2) !! "cont_b" = Some (PArr xb) ∧
    xr ++ xa ++ xb = slow_cont_after (H := stub_env 0) a ∧
    length xr = 3%nat ∧ length xa = 3%nat ∧ length xb = 3%nat.
Proof.
  assert (slow_run 0 0 2 = (Ret (returned (slow_run 0 0 2)), (slow_run 0 0 2).2))
    as Hrun by (apply returns_eq; vm_compute; reflexivity).
  split; [exact Hrun|].
  destruct (nsev_slow_wrapper_continuous_blocks (H := stub_env 0) 2 caller_q
              0%float 1%float (-2)%float 2%float 3 4 1 (slow_options 0 2)
              caller_world _ _ Hrun)
    as (a & Hcall & _ & _ & Hboth).
  destruct (Hboth eq_refl) as (xr & xa & xb & Hr & Ha & Hb & Hcat & Hlr & Hla & Hlb).
  exists a, xr, xa, xb. repeat split; assumption.
Defined.


(** A single sample for [D = 2]. *)
Lemma nsev_slow_wrapper_broadcasts_single_sample_witness :
  nsev_slow_sizes_ok (H := stub_env 0) 2 3 4 (slow_options 0 0) ∧
  ∃ a,
    calls_since (World {[ caller_q := [cplx 5 0] ]} [])
      (nsev_slow_wrapper (H := stub_env 0) 2 caller_q 0%float 1%float
         (-2)%float 2%float 3 4 1 (slow_options 0 0)
         (World {[ caller_q := [cplx 5 0] ]} [])).2
      [Call_nsev_slow a] ∧
    slow_a_q a = replicate (Z.to_nat (ctypes_uint (H := stub_env 0) 2))
                   (complex_add (cplx 5 0) zero_j).
Proof.
  assert (nsev_slow_sizes_ok (H := stub_env 0) 2 3 4 (slow_options 0 0)) as Hsizes
    by stub_sizes.
  split; [exact Hsizes|].
  exact (nsev_slow_wrapper_broadcasts_single_sample (H := stub_env 0) 2 caller_q
           0%float 1%float (-2)%float 2%float 3 4 1 (slow_options 0 0)
           (World {[ caller_q := [cplx 5 0] ]} []) (cplx 5 0) eq_refl Hsizes).
Defined.

(** No room for bound states ([K = 0]) while the stand-in reports one:
    the count is 1, the array is empty. *)
Lemma nsev_slow_wrapper_bound_states_within_buffer_witness :
  disc_requested (slow_options 0 0) ∧
  ∃ rd xs,
    (nsev_slow_wrapper (H := stub_env 0) 2 caller_q 0%float 1%float
       (-2)%float 2%float 3 0 1 (slow_options 0 0) caller_world).1 = Ret rd ∧
    rd !! "bound_states_num" = Some (PInt 1) ∧
    rd !! "bound_states" = Some (PArr xs) ∧
    Z.of_nat (length xs) = 0.
Proof.
  assert (disc_requested (slow_options 0 0)) as Hdisc by (left; reflexivity).
  split; [exact Hdisc|].
  set (r := nsev_slow_wrapper (H := stub_env 0) 2 caller_q 0%float 1%float
              (-2)%float 2%float 3 0 1 (slow_options 0 0) caller_world).
  assert (r = (Ret (returned r), r.2)) as Hrun
    by (apply returns_eq; vm_compute; reflexivity).
  destruct (nsev_slow_wrapper_bound_states_within_buffer (H := stub_env 0) 2 caller_q
              0%float 1%float (-2)%float 2%float 3 0 1 (slow_options 0 0)
              caller_world _ _ Hrun Hdisc)
    as (a & xs & Hcall & Hnum & Hstates & Hlen).
  assert (returned r !! "bound_states_num" = Some (PInt 1)) as Hone
    by (vm_compute; reflexivity).
  exists (returned r), xs. split; [by rewrite Hrun at 1|].
  split; [exact Hone|]. split; [exact Hstates|].
  rewrite Hone in Hnum. injection Hnum as Hnew. rewrite <- Hnew in Hlen.
  exact Hlen.
Defined.

(** Status 1: [nsep_wrapper] returns all the same. *)
Lemma nsep_wrapper_returns_iff_samples_fit_witness :
  heap caller_world !! caller_q = Some [cplx 1 0; cplx 2 0] ∧
  nsep_sizes_ok (H := stub_env 1) 2 ∧
  ∃ a rd,
    (nsep_run 1).1 = Ret rd ∧ keys rd = nsep_keys ∧
    calls_since caller_world (nsep_run 1).2 [Call_nsep a] ∧
    rd !! "return_value" =
      Some (PInt (ctypes_int (H := stub_env 1)
                    (nsep_o_rv (fnft_nsep (Env := stub_env 1) a)))).
Proof.
  assert (nsep_sizes_ok (H := stub_env 1) 2) as Hsizes by stub_sizes.
  split; [reflexivity|]. split; [exact Hsizes|].
  pose proof (nsep_wrapper_returns_iff_samples_fit (H := stub_env 1) 2 caller_q
                0%float 1%float 1 nsep_default_options caller_world
                [cplx 1 0; cplx 2 0] eq_refl) as Hall.
  cbv zeta in Hall. destruct Hall as [Hfit _].
  destruct Hfit as (a & rd & Hret & Hkeys & Hcall & _ & Hrv).
  { eexists. vm_compute. reflexivity. }
  { exact Hsizes. }
  by exists a, rd.
Defined.

(** The caller's two samples: buffers of eight and four entries. *)
Lemma nsep_wrapper_engine_call_witness :
  heap caller_world !! caller_q = Some [cplx 1 0; cplx 2 0] ∧
  length [cplx 1 0; cplx 2 0] = Z.to_nat (ctypes_uint (H := stub_env 0) 2) ∧
  nsep_sizes_ok (H := stub_env 0) 2 ∧
  calls_since caller_world (nsep_run 0).2
    [Call_nsep (nsep_args (H := stub_env 0) 2 [cplx 1 0; cplx 2 0]
                  0%float 1%float 1 nsep_default_options)].
Proof.
  assert (nsep_sizes_ok (H := stub_env 0) 2) as Hsizes by stub_sizes.
  split; [reflexivity|]. split; [reflexivity|]. split; [exact Hsizes|].
  exact (nsep_wrapper_engine_call (H := stub_env 0) 2 caller_q 0%float 1%float 1
           nsep_default_options caller_world [cplx 1 0; cplx 2 0] eq_refl eq_refl
           Hsizes).
Defined.

(** [nsep] on the caller's two samples, the library returning status 1. *)
Lemma nsep_always_returns_witness :
  heap caller_world !! caller_q = Some [cplx 1 0; cplx 2 0] ∧
  Z.of_nat (length [cplx 1 0; cplx 2 0]) < 2 ^ Z.of_nat (@uint_bits (stub_env 1)) ∧
  nsep_sizes_ok (H := stub_env 1) (Z.of_nat (length [cplx 1 0; cplx 2 0])) ∧
  ∃ rd,
    (nsep (H := stub_env 1) (λ _ _ _ _ _ _, nsep_default_options) caller_q
       0%float 1%float 1 None None None None None None caller_world).1 = Ret rd ∧
    keys rd = nsep_keys.
Proof.
  assert (Z.of_nat (length [cplx 1 0; cplx 2 0]) < 2 ^ Z.of_nat (@uint_bits (stub_env 1)))
    as Hsmall by (vm_compute; reflexivity).
  assert (nsep_sizes_ok (H := stub_env 1) (Z.of_nat (length [cplx 1 0; cplx 2 0])))
    as Hsizes by stub_sizes.
  split; [reflexivity|]. split; [exact Hsmall|]. split; [exact Hsizes|].
  pose proof (nsep_always_returns (H := stub_env 1)
                (λ _ _ _ _ _ _, nsep_default_options) caller_q 0%float 1%float 1
                None None None None None None caller_world [cplx 1 0; cplx 2 0]
                eq_refl Hsmall Hsizes) as Hall.
  cbv zeta in Hall. destruct Hall as (_ & _ & rd & Hret & Hkeys & _).
  by exists rd.
Defined.

(** The caller's spectrum of three entries, no bound states, status 0. *)
Lemma nsev_inverse_wrapper_without_bound_states_witness :
  heap caller_world !! caller_contspec = Some [cplx 1 1; cplx 0 1; cplx 1 0] ∧
  0 ≤ 3 ≤ @np_max_size (stub_env 0) ∧
  ctypes_uint (H := stub_env 0) 3 ≤ @np_max_size (stub_env 0) ∧
  calls_since caller_world (inverse_wrapper_run 0).2
    [Call_nsev_inverse
       (nsev_inverse_args (H := stub_env 0) 3 [cplx 1 1; cplx 0 1; cplx 1 0]
          (-4)%float 4%float 0 None None 3 0%float 1%float 1
          (stub_nsev_inverse_options 4 None None None None None))] ∧
  ∃ rd, (inverse_wrapper_run 0).1 = Ret rd ∧ keys rd = nsev_inverse_keys.
Proof.
  assert (0 ≤ 3 ≤ @np_max_size (stub_env 0)) as HM
    by (split; vm_compute; discriminate).
  assert (ctypes_uint (H := stub_env 0) 3 ≤ @np_max_size (stub_env 0)) as HD
    by (vm_compute; discriminate).
  split; [reflexivity|]. split; [exact HM|]. split; [exact HD|].
  pose proof (nsev_inverse_wrapper_without_bound_states (H := stub_env 0)
                3 caller_contspec (-4)%float 4%float 0 None None 3 0%float 1%float 1
                (stub_nsev_inverse_options 4 None None None None None)
                caller_world [cplx 1 1; cplx 0 1; cplx 1 0]
                eq_refl eq_refl HM ltac:(lia) HD) as Hall.
  cbv zeta in Hall. destruct Hall as (Hcall & _ & Hret).
  split; [exact Hcall|].
  destruct Hret as (rd & Hrd & Hkeys & _); [vm_compute; reflexivity|].
  by exists rd.
Defined.

(** [K = -1] on a 64-bit [ctypes_uint]. *)
Lemma nsev_inverse_wrapper_negative_count_witness :
  - 2 ^ Z.of_nat (@uint_bits (stub_env 0)) ≤ -1 < 0 ∧
  ∃ a,
    calls_since caller_world
      (nsev_inverse_wrapper (H := stub_env 0) 3 caller_contspec
         (-4)%float 4%float (-1) None None 3 0%float 1%float 1
         (stub_nsev_inverse_options 4 None None None None None) caller_world).2
      [Call_nsev_inverse a] ∧
    inv_a_K a = 18446744073709551615 ∧
    inv_a_boundstates a = None ∧ inv_a_discspec a = None.
Proof.
  assert (- 2 ^ Z.of_nat (@uint_bits (stub_env 0)) ≤ -1 < 0) as Hneg
    by (split; [vm_compute; discriminate | lia]).
  assert (0 ≤ 3 ≤ @np_max_size (stub_env 0)) as HM
    by (split; vm_compute; discriminate).
  assert (ctypes_uint (H := stub_env 0) 3 ≤ @np_max_size (stub_env 0)) as HD
    by (vm_compute; discriminate).
  split; [exact Hneg|].
  exact (nsev_inverse_wrapper_negative_count (H := stub_env 0)
           3 caller_contspec (-4)%float 4%float (-1) None None 3 0%float 1%float 1
           (stub_nsev_inverse_options 4 None None None None None)
           caller_world [cplx 1 1; cplx 0 1; cplx 1 0]
           eq_refl eq_refl HM Hneg HD).
Defined.

(** Two bound states, the caller's two-entry array serving as both
    arguments. *)
Lemma nsev_inverse_wrapper_with_bound_states_witness :
  heap caller_world !! caller_q = Some [cplx 1 0; cplx 2 0] ∧
  calls_since caller_world
    (nsev_inverse_wrapper (H := stub_env 0) 3 caller_contspec
       (-4)%float 4%float 2 (Some caller_q) (Some caller_q) 3 0%float 1%float 1
       (stub_nsev_inverse_options 4 None None None None None) caller_world).2
    [Call_nsev_inverse
       (nsev_inverse_args (H := stub_env 0) 3 [cplx 1 1; cplx 0 1; cplx 1 0]
          (-4)%float 4%float 2 (Some [cplx 1 0; cplx 2 0])
          (Some [cplx 1 0; cplx 2 0]) 3 0%float 1%float 1
          (stub_nsev_inverse_options 4 None None None None None))].
Proof.
  assert (0 ≤ 3 ≤ @np_max_size (stub_env 0)) as HM
    by (split; vm_compute; discriminate).
  assert (2 ≤ @np_max_size (stub_env 0)) as HKmax
    by (vm_compute; discriminate).
  assert (ctypes_uint (H := stub_env 0) 3 ≤ @np_max_size (stub_env 0)) as HD
    by (vm_compute; discriminate).
  split; [reflexivity|].
  pose proof (nsev_inverse_wrapper_with_bound_states (H := stub_env 0)
                3 caller_contspec (-4)%float 4%float 2 caller_q caller_q
                3 0%float 1%float 1
                (stub_nsev_inverse_options 4 None None None None None)
                caller_world [cplx 1 1; cplx 0 1; cplx 1 0]
                [cplx 1 0; cplx 2 0] [cplx 1 0; cplx 2 0]
                eq_refl eq_refl HM ltac:(lia) HKmax HD
                eq_refl eq_refl eq_refl eq_refl) as Hall.
  cbv zeta in Hall. exact (proj1 Hall).
Defined.

(** Two bound states announced, no array given. *)
Lemma nsev_inverse_wrapper_missing_arrays_witness :
  calls (nsev_inverse_wrapper (H := stub_env 0) 3 caller_contspec
           (-4)%float 4%float 2 None None 3 0%float 1%float 1
           (stub_nsev_inverse_options 4 None None None None None) caller_world).2 = [] ∧
  (nsev_inverse_wrapper (H := stub_env 0) 3 caller_contspec
     (-4)%float 4%float 2 None None 3 0%float 1%float 1
     (stub_nsev_inverse_options 4 None None None None None) caller_world).1
  = Raise (TypeError "'NoneType' object is not subscriptable").
Proof.
  assert (0 ≤ 3 ≤ @np_max_size (stub_env 0)) as HM
    by (split; vm_compute; discriminate).
  assert (2 ≤ @np_max_size (stub_env 0)) as HKmax
    by (vm_compute; discriminate).
  exact (nsev_inverse_wrapper_missing_arrays (H := stub_env 0)
           3 caller_contspec (-4)%float 4%float 2 None None 3 0%float 1%float 1
           (stub_nsev_inverse_options 4 None None None None None)
           caller_world [cplx 1 1; cplx 0 1; cplx 1 0] []
           eq_refl eq_refl HM ltac:(lia) HKmax (or_introl eq_refl)).
Defined.

(** Three samples requested: the stand-in writes three. *)
Lemma nsev_inverse_wrapper_result_shape_witness :
  inverse_wrapper_run 0
    = (Ret (returned (inverse_wrapper_run 0)), (inverse_wrapper_run 0).2) ∧
  keys (returned (inverse_wrapper_run 0)) = nsev_inverse_keys ∧
  ∃ qv, returned (inverse_wrapper_run 0) !! "q" = Some (PArr qv) ∧
        length qv = Z.to_nat (ctypes_uint (H := stub_env 0) 3).
Proof.
  assert (inverse_wrapper_run 0
          = (Ret (returned (inverse_wrapper_run 0)), (inverse_wrapper_run 0).2))
    as Hrun by (apply returns_eq; vm_compute; reflexivity).
  split; [exact Hrun|].
  exact (nsev_inverse_wrapper_result_shape (H := stub_env 0)
           3 caller_contspec (-4)%float 4%float 0 None None 3 0%float 1%float 1
           (stub_nsev_inverse_options 4 None None None None None)
           caller_world _ _ Hrun).
Defined.

(** [M = -1]. *)
Lemma nsev_inverse_wrapper_rejects_bad_spectrum_witness :
  calls (nsev_inverse_wrapper (H := stub_env 0) (-1) caller_contspec
           (-4)%float 4%float 0 None None 3 0%float 1%float 1
           (stub_nsev_inverse_options 4 None None None None None) caller_world).2 = [] ∧
  ∃ msg,
    (nsev_inverse_wrapper (H := stub_env 0) (-1) caller_contspec
       (-4)%float 4%float 0 None None 3 0%float 1%float 1
       (stub_nsev_inverse_options 4 None None None None None) caller_world).1
    = Raise (ValueError msg).
Proof.
  assert (-1 < 0) as Hneg by lia.
  exact (nsev_inverse_wrapper_rejects_bad_spectrum (H := stub_env 0)
           (-1) caller_contspec (-4)%float 4%float 0 None None 3 0%float 1%float 1
           (stub_nsev_inverse_options 4 None None None None None)
           caller_world [cplx 1 1; cplx 0 1; cplx 1 0]
           eq_refl (or_introl Hneg)).
Defined.

(** [nsev_slow] on the caller's two samples and a three-point time
    vector. *)
Lemma nsev_slow_engine_call_witness :
  heap caller_world !! caller_q = Some [cplx 1 0; cplx 2 0] ∧
  amin inverse_tvec = Some 0%float ∧ amax inverse_tvec = Some 1%float ∧
  calls_since caller_world
    (nsev_slow (H := stub_env 0) caller_q inverse_tvec (-2)%float 2%float 3 4 1
       None None None None None None None caller_world).2
    [Call_nsev_slow
       (nsev_slow_args (H := stub_env 0) 2 [cplx 1 0; cplx 2 0] 0%float 1%float
          (-2)%float 2%float 3 4 1
          (stub_nsev_slow_options None None None None None None None))].
Proof.
  assert (nsev_slow_sizes_ok (H := stub_env 0)
            (Z.of_nat (length [cplx 1 0; cplx 2 0])) 3 4
            (stub_nsev_slow_options None None None None None None None))
    as Hsizes by stub_sizes.
  split; [reflexivity|]. split; [reflexivity|]. split; [reflexivity|].
  pose proof (nsev_slow_engine_call (H := stub_env 0) caller_q inverse_tvec
                (-2)%float 2%float 3 4 1 None None None None None None None
                caller_world [cplx 1 0; cplx 2 0] 0%float 1%float
                eq_refl eq_refl eq_refl ltac:(vm_compute; reflexivity)
                Hsizes) as Hall.
  cbv zeta in Hall. exact (proj2 Hall).
Defined.

(** The caller's array with an empty time vector. *)
Lemma empty_tvec_is_rejected_witness :
  heap caller_world !! caller_q = Some [cplx 1 0; cplx 2 0] ∧
  nsev_slow (H := stub_env 0) caller_q [] (-2)%float 2%float 3 4 1
    None None None None None None None caller_world =
  (Raise (ValueError
     "zero-size array to reduction operation minimum which has no identity"),
   caller_world).
Proof.
  split; [reflexivity|].
  exact (proj1 (empty_tvec_is_rejected (H := stub_env 0) caller_world caller_q
                  [cplx 1 0; cplx 2 0] eq_refl)
           (-2)%float 2%float 3 4 1 None None None None None None None).
Defined.

(** [nsev_inverse] on the caller's spectrum and three time points. *)
Lemma nsev_inverse_two_calls_witness :
  ∃ a rd,
    calls_since caller_world (inverse_run 0).2
      [Call_nsev_inverse_XI
         (nsev_inverse_xi_args (H := stub_env 0) 3 0%float 1%float 3 4);
       Call_nsev_inverse a] ∧
    inv_a_Xi a = ((-4)%float, 4%float) ∧ inv_a_D a = 3 ∧ inv_a_M a = 3 ∧
    (inverse_run 0).1 = Ret rd ∧ keys rd = nsev_inverse_keys.
Proof.
  assert (0 ≤ 3 ≤ @np_max_size (stub_env 0)) as HM
    by (split; vm_compute; discriminate).
  assert (ctypes_uint (H := stub_env 0) 3 ≤ @np_max_size (stub_env 0)) as HD
    by (vm_compute; discriminate).
  pose proof (nsev_inverse_two_calls (H := stub_env 0) caller_contspec
                inverse_tvec 1 4 None None None None None caller_world
                [cplx 1 1; cplx 0 1; cplx 1 0] 0%float 1%float
                eq_refl eq_refl eq_refl) as Hall.
  cbv zeta in Hall. destruct (Hall (proj2 HM) HD eq_refl) as (Hcall & _ & Hret).
  destruct Hret as (rd & Hrd & Hkeys & _); [vm_compute; reflexivity|].
  eexists _, rd. split; [exact Hcall|].
  split; [reflexivity|]. split; [reflexivity|]. split; [reflexivity|].
  by split.
Defined.

(** Three time points give three samples. *)
Lemma nsev_inverse_one_sample_per_time_witness :
  inverse_run 0 = (Ret (returned (inverse_run 0)), (inverse_run 0).2) ∧
  ∃ qv, returned (inverse_run 0) !! "q" = Some (PArr qv) ∧ length qv = 3%nat.
Proof.
  assert (inverse_run 0 = (Ret (returned (inverse_run 0)), (inverse_run 0).2))
    as Hrun by (apply returns_eq; vm_compute; reflexivity).
  split; [exact Hrun|].
  exact (nsev_inverse_one_sample_per_time (H := stub_env 0) caller_contspec
           inverse_tvec 1 4 None None None None None caller_world _ _ Hrun
           ltac:(vm_compute; reflexivity)).
Defined.
